(** * REST client metrics adapters (component-base/metrics/prometheus/restclient)

  A shallow embedding of [metrics.go]: the five package-level metric
  instruments, the [init] routine that registers them, and the four
  adapters that forward the client library's callbacks to them. *)

From Stdlib Require Import ZArith Bool.
From Stdlib Require Import Floats.SpecFloat.
From stdpp Require Import base option list strings gmap fin_maps.

Local Open Scope Z_scope.

(** Closes a decidable goal about concrete data by evaluating its
    decision. *)
Ltac by_evaluation := apply (bool_decide_unpack _); vm_compute; exact I.

(** ** float64

  Go's [float64] is IEEE 754 binary64. It is modelled by the Standard
  Library's [spec_float] at precision 53 and maximal exponent 1024, whose
  operations round to nearest, ties to even, as Go's do. *)
Module Float64.

Definition prec : Z := 53.
Definition emax : Z := 1024.

Definition t : Type := spec_float.

(** [float64(n)] for an integer [n]. *)
Definition of_Z (n : Z) : t := binary_normalize prec emax n 0 false.

Definition add (x y : t) : t := SFadd prec emax x y.
Definition mul (x y : t) : t := SFmul prec emax x y.
Definition div (x y : t) : t := SFdiv prec emax x y.

(** [x <= y]; false as soon as one side is NaN. *)
Definition leb (x y : t) : bool := SFleb x y.
Definition ltb (x y : t) : bool := SFltb x y.

(** [math.Inf(sign)]: [+Inf] when [sign >= 0], [-Inf] otherwise. *)
Definition Inf (sign : Z) : t := S754_infinity (sign <? 0).

Definition zero : t := S754_zero false.

(** The decimal literal [n/d], correctly rounded: both [n] and [d] are
    small enough to be exact, and [div] rounds the exact quotient. *)
Definition lit (n d : Z) : t := div (of_Z n) (of_Z d).

(** The least exponent of a finite value. *)
Definition emin : Z := SpecFloat.emin prec emax.

(** [x] is a non-zero number, finite or infinite, whose sign bit is [s]. *)
Definition signed_nonzero (s : bool) (x : t) : Prop :=
  match x with
  | S754_finite s' _ e => s' = s /\ emin <= e
  | S754_infinity s' => s' = s
  | _ => False
  end.

(** [x < 0]. *)
Definition negative (x : t) : Prop := ltb x zero = true.

#[global] Instance t_eq_dec : EqDecision t.
Proof. solve_decision. Defined.

End Float64.

(** ** time.Duration

  A [Duration] is an [int64] count of nanoseconds. It is read as an
  integer; what is proved below holds of every integer, so of every
  [int64]. *)
Module Duration.

Definition t : Type := Z.

Definition Nanosecond : t := 1.
Definition Microsecond : t := 1000 * Nanosecond.
Definition Millisecond : t := 1000 * Microsecond.
Definition Second : t := 1000 * Millisecond.
Definition Minute : t := 60 * Second.
Definition Hour : t := 60 * Minute.

(** [func (d Duration) Seconds() float64]:
    [sec := d / Second; nsec := d % Second;
     return float64(sec) + float64(nsec)/1e9].
    Go's integer [/] and [%] truncate toward zero. *)
Definition Seconds (d : t) : Float64.t :=
  let sec := Z.quot d Second in
  let nsec := Z.rem d Second in
  Float64.add (Float64.of_Z sec)
              (Float64.div (Float64.of_Z nsec) (Float64.of_Z 1000000000)).

End Duration.

(** ** k8s.io/component-base/metrics

  The instruments themselves live outside this package. Their options
  records carry the fields that [metrics.go] sets; the behaviour of each
  instrument is modelled below as a value together with the pure effect of
  each of its methods. *)
Module k8smetrics.

Record HistogramOpts : Type := {
  ho_Name : string;
  ho_Help : string;
  ho_Buckets : list Float64.t;
  ho_DeprecatedVersion : string
}.

Record CounterOpts : Type := {
  co_Name : string;
  co_Help : string
}.

Record GaugeOpts : Type := {
  go_Name : string;
  go_Help : string
}.

(** Modelled from the spec: [ExponentialBuckets(start, factor, count)] of
    the metrics library is not part of this package. It yields [count]
    bucket bounds, the first being [start] and each next one the previous
    one times [factor] ("exponential: 0.001s x 2^0..9"). *)
Fixpoint ExponentialBuckets (start factor : Float64.t) (count : nat)
  : list Float64.t :=
  match count with
  | O => []
  | S n => start :: ExponentialBuckets (Float64.mul start factor) factor n
  end.

(** Modelled from the spec: the state of one histogram series, which the
    metrics library keeps. A histogram records "a distribution of observed
    values into predefined buckets, yielding count/sum/quantile
    estimates": the number of samples, their sum, and one counter per
    bucket, the last one for the values above every bound. *)
Record HistogramData : Type := {
  hd_count : N;
  hd_sum : Float64.t;
  hd_buckets : list N
}.

#[global] Instance HistogramData_eq_dec : EqDecision HistogramData.
Proof. solve_decision. Defined.

(** Modelled from the spec: the missing library files a value in one of
    the "predefined buckets". The bucket of [v] is that of the first bound
    that [v] does not exceed, and the last one when there is none (also for
    NaN). *)
Fixpoint bucket_index (bounds : list Float64.t) (v : Float64.t) : nat :=
  match bounds with
  | [] => O
  | b :: bs => if Float64.leb v b then O else S (bucket_index bs v)
  end.

(** Modelled from the spec: a series that has observed nothing. *)
Definition empty_data (bounds : list Float64.t) : HistogramData :=
  {| hd_count := 0%N;
     hd_sum := Float64.zero;
     hd_buckets := replicate (S (length bounds)) 0%N |}.

(** Modelled from the spec: one observation of [v] counts one more
    sample, adds [v] to the sum and counts [v] in its bucket. *)
Definition observe (bounds : list Float64.t) (v : Float64.t)
    (h : HistogramData) : HistogramData :=
  {| hd_count := (hd_count h + 1)%N;
     hd_sum := Float64.add (hd_sum h) v;
     hd_buckets :=
       alter (fun n => (n + 1)%N) (bucket_index bounds v) (hd_buckets h) |}.

(** *** Histogram (unlabeled) *)

(** Modelled from the spec: the missing [Histogram] of the library, one
    series with the options it was made from. *)
Record Histogram : Type := {
  h_opts : HistogramOpts;
  h_data : HistogramData
}.

(** Modelled from the spec: [NewHistogram(opts)]; the buckets are "fixed at
    creation" and nothing is observed yet. *)
Definition NewHistogram (opts : HistogramOpts) : Histogram :=
  {| h_opts := opts; h_data := empty_data (ho_Buckets opts) |}.

(** Modelled from the spec: [h.Observe(v)]. *)
Definition Histogram_Observe (v : Float64.t) (h : Histogram) : Histogram :=
  {| h_opts := h_opts h;
     h_data := observe (ho_Buckets (h_opts h)) v (h_data h) |}.

(** *** HistogramVec *)

(** Modelled from the spec: the missing [HistogramVec] of the library, a
    histogram "keyed by a tuple of label values". *)
Record HistogramVec : Type := {
  hv_opts : HistogramOpts;
  hv_labels : list string;
  hv_series : gmap (list string) HistogramData
}.

(** Modelled from the spec: [NewHistogramVec(opts, labels)], with no
    series yet. *)
Definition NewHistogramVec (opts : HistogramOpts) (labels : list string)
  : HistogramVec :=
  {| hv_opts := opts; hv_labels := labels; hv_series := ∅ |}.

(** Modelled from the spec: the series that [WithLabelValues(lvs...)]
    designates, the existing one or else a new one ("invalid label
    combinations simply create new label series"). *)
Definition HistogramVec_series (lvs : list string) (hv : HistogramVec)
  : HistogramData :=
  default (empty_data (ho_Buckets (hv_opts hv))) (hv_series hv !! lvs).

(** Modelled from the spec: [hv.WithLabelValues(lvs...).Observe(v)]. *)
Definition HistogramVec_Observe (lvs : list string) (v : Float64.t)
    (hv : HistogramVec) : HistogramVec :=
  {| hv_opts := hv_opts hv;
     hv_labels := hv_labels hv;
     hv_series :=
       <[lvs := observe (ho_Buckets (hv_opts hv)) v
                  (HistogramVec_series lvs hv)]> (hv_series hv) |}.

(** *** CounterVec *)

(** Modelled from the spec: the missing [CounterVec] of the library, a
    "monotonically increasing count" per label tuple. *)
Record CounterVec : Type := {
  cv_opts : CounterOpts;
  cv_labels : list string;
  cv_series : gmap (list string) N
}.

(** Modelled from the spec: [NewCounterVec(opts, labels)], with no series
    yet. *)
Definition NewCounterVec (opts : CounterOpts) (labels : list string)
  : CounterVec :=
  {| cv_opts := opts; cv_labels := labels; cv_series := ∅ |}.

(** Modelled from the spec: what the series of [lvs] counts; a label tuple
    not seen yet counts zero. *)
Definition CounterVec_value (lvs : list string) (cv : CounterVec) : N :=
  default 0%N (cv_series cv !! lvs).

(** Modelled from the spec: [cv.WithLabelValues(lvs...).Inc()], which
    "increments the counter series for the given label tuple by 1". *)
Definition CounterVec_Inc (lvs : list string) (cv : CounterVec)
  : CounterVec :=
  {| cv_opts := cv_opts cv;
     cv_labels := cv_labels cv;
     cv_series :=
       <[lvs := (CounterVec_value lvs cv + 1)%N]> (cv_series cv) |}.

(** *** Gauge *)

(** Modelled from the spec: the missing [Gauge] of the library, "a single
    current scalar value, settable up or down". *)
Record Gauge : Type := {
  g_opts : GaugeOpts;
  g_value : Float64.t
}.

(** Modelled from the spec: [NewGauge(opts)]; a gauge that was never set
    reads zero. *)
Definition NewGauge (opts : GaugeOpts) : Gauge :=
  {| g_opts := opts; g_value := Float64.zero |}.

(** Modelled from the spec: [g.Set(v)]; "each call overwrites the prior
    value". *)
Definition Gauge_Set (v : Float64.t) (g : Gauge) : Gauge :=
  {| g_opts := g_opts g; g_value := v |}.

End k8smetrics.

(** ** Package-level variables and the adapters that point at them

    The five instruments are package-level variables holding pointers that
    are never reassigned, and each adapter holds such a pointer. A pointer is
    modelled by the name of the variable it was taken from, so that two
    adapters built on one instrument do share it. *)

Inductive HistogramVecVar : Type := requestLatency | deprecatedRequestLatency.
Inductive CounterVecVar : Type := requestResult.
Inductive GaugeVar : Type := execPluginCertTTL.
Inductive HistogramVar : Type := execPluginCertRotation.

#[global] Instance HistogramVecVar_eq_dec : EqDecision HistogramVecVar.
Proof. solve_decision. Defined.

#[global] Instance CounterVecVar_eq_dec : EqDecision CounterVecVar.
Proof. solve_decision. Defined.

#[global] Instance GaugeVar_eq_dec : EqDecision GaugeVar.
Proof. solve_decision. Defined.

#[global] Instance HistogramVar_eq_dec : EqDecision HistogramVar.
Proof. solve_decision. Defined.

(** [type latencyAdapter struct { m, dm *k8smetrics.HistogramVec }] *)
Record latencyAdapter : Type := { la_m : HistogramVecVar; la_dm : HistogramVecVar }.

(** [type resultAdapter struct { m *k8smetrics.CounterVec }] *)
Record resultAdapter : Type := { ra_m : CounterVecVar }.

(** [type ttlAdapter struct { m *k8smetrics.Gauge }] *)
Record ttlAdapter : Type := { ta_m : GaugeVar }.

(** [type rotationAdapter struct { m *k8smetrics.Histogram }] *)
Record rotationAdapter : Type := { oa_m : HistogramVar }.

(** ** k8s.io/client-go/tools/metrics *)
Module metrics.

(** [metrics.RegisterOpts], with the four fields that [init] fills. Their
    interface types have the adapters of this package as implementations. *)
Record RegisterOpts : Type := {
  ClientCertTTL : ttlAdapter;
  ClientCertRotationAge : rotationAdapter;
  RequestLatency : latencyAdapter;
  RequestResult : resultAdapter
}.

End metrics.

(** ** The state of the process

    The current value of each package-level instrument, the names held by
    the legacy registry in registration order, and the hooks installed in
    the client library ([None] while its no-op defaults are in place). *)
Record World : Type := {
  w_requestLatency : k8smetrics.HistogramVec;
  w_deprecatedRequestLatency : k8smetrics.HistogramVec;
  w_requestResult : k8smetrics.CounterVec;
  w_execPluginCertTTL : k8smetrics.Gauge;
  w_execPluginCertRotation : k8smetrics.Histogram;
  w_registry : list string;
  w_hooks : option metrics.RegisterOpts
}.

(** Dereferencing a pointer to an instrument, and writing through it. *)
Definition load_hv (p : HistogramVecVar) (w : World) : k8smetrics.HistogramVec :=
  match p with
  | requestLatency => w_requestLatency w
  | deprecatedRequestLatency => w_deprecatedRequestLatency w
  end.

Definition store_hv (p : HistogramVecVar) (hv : k8smetrics.HistogramVec)
    (w : World) : World :=
  match p with
  | requestLatency =>
      {| w_requestLatency := hv;
         w_deprecatedRequestLatency := w_deprecatedRequestLatency w;
         w_requestResult := w_requestResult w;
         w_execPluginCertTTL := w_execPluginCertTTL w;
         w_execPluginCertRotation := w_execPluginCertRotation w;
         w_registry := w_registry w;
         w_hooks := w_hooks w |}
  | deprecatedRequestLatency =>
      {| w_requestLatency := w_requestLatency w;
         w_deprecatedRequestLatency := hv;
         w_requestResult := w_requestResult w;
         w_execPluginCertTTL := w_execPluginCertTTL w;
         w_execPluginCertRotation := w_execPluginCertRotation w;
         w_registry := w_registry w;
         w_hooks := w_hooks w |}
  end.

Definition load_cv (p : CounterVecVar) (w : World) : k8smetrics.CounterVec :=
  match p with requestResult => w_requestResult w end.

Definition store_cv (p : CounterVecVar) (cv : k8smetrics.CounterVec)
    (w : World) : World :=
  match p with
  | requestResult =>
      {| w_requestLatency := w_requestLatency w;
         w_deprecatedRequestLatency := w_deprecatedRequestLatency w;
         w_requestResult := cv;
         w_execPluginCertTTL := w_execPluginCertTTL w;
         w_execPluginCertRotation := w_execPluginCertRotation w;
         w_registry := w_registry w;
         w_hooks := w_hooks w |}
  end.

Definition load_g (p : GaugeVar) (w : World) : k8smetrics.Gauge :=
  match p with execPluginCertTTL => w_execPluginCertTTL w end.

Definition store_g (p : GaugeVar) (g : k8smetrics.Gauge) (w : World) : World :=
  match p with
  | execPluginCertTTL =>
      {| w_requestLatency := w_requestLatency w;
         w_deprecatedRequestLatency := w_deprecatedRequestLatency w;
         w_requestResult := w_requestResult w;
         w_execPluginCertTTL := g;
         w_execPluginCertRotation := w_execPluginCertRotation w;
         w_registry := w_registry w;
         w_hooks := w_hooks w |}
  end.

Definition load_h (p : HistogramVar) (w : World) : k8smetrics.Histogram :=
  match p with execPluginCertRotation => w_execPluginCertRotation w end.

Definition store_h (p : HistogramVar) (h : k8smetrics.Histogram)
    (w : World) : World :=
  match p with
  | execPluginCertRotation =>
      {| w_requestLatency := w_requestLatency w;
         w_deprecatedRequestLatency := w_deprecatedRequestLatency w;
         w_requestResult := w_requestResult w;
         w_execPluginCertTTL := w_execPluginCertTTL w;
         w_execPluginCertRotation := h;
         w_registry := w_registry w;
         w_hooks := w_hooks w |}
  end.

Definition set_registry (r : list string) (w : World) : World :=
  {| w_requestLatency := w_requestLatency w;
     w_deprecatedRequestLatency := w_deprecatedRequestLatency w;
     w_requestResult := w_requestResult w;
     w_execPluginCertTTL := w_execPluginCertTTL w;
     w_execPluginCertRotation := w_execPluginCertRotation w;
     w_registry := r;
     w_hooks := w_hooks w |}.

Definition set_hooks (o : option metrics.RegisterOpts) (w : World) : World :=
  {| w_requestLatency := w_requestLatency w;
     w_deprecatedRequestLatency := w_deprecatedRequestLatency w;
     w_requestResult := w_requestResult w;
     w_execPluginCertTTL := w_execPluginCertTTL w;
     w_execPluginCertRotation := w_execPluginCertRotation w;
     w_registry := w_registry w;
     w_hooks := o |}.

(** ** Statements

    A Go statement either completes in a new state or panics; a panic that
    nothing recovers ends the process, so no state survives it. *)
Inductive Outcome (A : Type) : Type :=
| Done (a : A) (w : World)
| Panic (msg : string).
Arguments Done {A} a w.
Arguments Panic {A} msg.

Definition M (A : Type) : Type := World -> Outcome A.

#[global] Instance M_ret : MRet M := fun A a w => Done a w.

#[global] Instance M_bind : MBind M := fun A B k m w =>
  match m w with
  | Done a w' => k a w'
  | Panic msg => Panic msg
  end.

Definition panic {A} (msg : string) : M A := fun _ => Panic msg.
Definition get : M World := fun w => Done w w.
Definition modify (f : World -> World) : M unit := fun w => Done tt (f w).

(** ** k8s.io/component-base/metrics/legacyregistry *)
Module legacyregistry.

(** What [MustRegister] accepts: a pointer to any of the instruments. *)
Inductive Registerable : Type :=
| OfHistogramVec (p : HistogramVecVar)
| OfCounterVec (p : CounterVecVar)
| OfGauge (p : GaugeVar)
| OfHistogram (p : HistogramVar).

#[global] Instance Registerable_eq_dec : EqDecision Registerable.
Proof. solve_decision. Defined.

(** The name under which an instrument is exported. [metrics.go] sets
    neither a namespace nor a subsystem, so it is the [Name] of the
    options. *)
Definition FQName (c : Registerable) (w : World) : string :=
  match c with
  | OfHistogramVec p => k8smetrics.ho_Name (k8smetrics.hv_opts (load_hv p w))
  | OfCounterVec p => k8smetrics.co_Name (k8smetrics.cv_opts (load_cv p w))
  | OfGauge p => k8smetrics.go_Name (k8smetrics.g_opts (load_g p w))
  | OfHistogram p => k8smetrics.ho_Name (k8smetrics.h_opts (load_h p w))
  end.

(** Modelled from the spec: [legacyregistry.MustRegister] is not part of
    this package. The registry contract is
    "register(instrument) -> success | fatal duplicate-name error". *)
Definition MustRegister (c : Registerable) : M unit :=
  w ← get;
  let name := FQName c w in
  if bool_decide (name ∈ w_registry w)
  then panic ("duplicate metrics collector registration attempted: " +:+ name)
  else modify (set_registry (w_registry w ++ [name])).

End legacyregistry.

(** Modelled from the spec: [metrics.Register] of the client library is not
    part of this package. It makes the given adapters "the active
    implementation ..., replacing any default/no-op implementation". *)
Definition metrics_Register (opts : metrics.RegisterOpts) : M unit :=
  modify (set_hooks (Some opts)).

(** ** Methods called through a pointer *)

(** [p.WithLabelValues(lvs...).Observe(v)] on a [*HistogramVec]. *)
Definition HistogramVec_Observe (p : HistogramVecVar) (lvs : list string)
    (v : Float64.t) : M unit :=
  modify (fun w => store_hv p (k8smetrics.HistogramVec_Observe lvs v (load_hv p w)) w).

(** [p.WithLabelValues(lvs...).Inc()] on a [*CounterVec]. *)
Definition CounterVec_Inc (p : CounterVecVar) (lvs : list string) : M unit :=
  modify (fun w => store_cv p (k8smetrics.CounterVec_Inc lvs (load_cv p w)) w).

(** [p.Set(v)] on a [*Gauge]. *)
Definition Gauge_Set (p : GaugeVar) (v : Float64.t) : M unit :=
  modify (fun w => store_g p (k8smetrics.Gauge_Set v (load_g p w)) w).

(** [p.Observe(v)] on a [*Histogram]. *)
Definition Histogram_Observe (p : HistogramVar) (v : Float64.t) : M unit :=
  modify (fun w => store_h p (k8smetrics.Histogram_Observe v (load_h p w)) w).

(** ** package restclient: the [var] block *)

Definition requestLatency_opts : k8smetrics.HistogramOpts :=
  {| k8smetrics.ho_Name := "rest_client_request_duration_seconds";
     k8smetrics.ho_Help := "Request latency in seconds. Broken down by verb and URL.";
     k8smetrics.ho_Buckets :=
       k8smetrics.ExponentialBuckets (Float64.lit 1 1000) (Float64.of_Z 2) 10;
     k8smetrics.ho_DeprecatedVersion := "" |}.

Definition new_requestLatency : k8smetrics.HistogramVec :=
  k8smetrics.NewHistogramVec requestLatency_opts ["verb"; "url"].

Definition deprecatedRequestLatency_opts : k8smetrics.HistogramOpts :=
  {| k8smetrics.ho_Name := "rest_client_request_latency_seconds";
     k8smetrics.ho_Help := "Request latency in seconds. Broken down by verb and URL.";
     k8smetrics.ho_Buckets :=
       k8smetrics.ExponentialBuckets (Float64.lit 1 1000) (Float64.of_Z 2) 10;
     k8smetrics.ho_DeprecatedVersion := "1.14.0" |}.

Definition new_deprecatedRequestLatency : k8smetrics.HistogramVec :=
  k8smetrics.NewHistogramVec deprecatedRequestLatency_opts ["verb"; "url"].

Definition requestResult_opts : k8smetrics.CounterOpts :=
  {| k8smetrics.co_Name := "rest_client_requests_total";
     k8smetrics.co_Help :=
       "Number of HTTP requests, partitioned by status code, method, and host." |}.

Definition new_requestResult : k8smetrics.CounterVec :=
  k8smetrics.NewCounterVec requestResult_opts ["code"; "method"; "host"].

Definition execPluginCertTTL_opts : k8smetrics.GaugeOpts :=
  {| k8smetrics.go_Name := "rest_client_exec_plugin_ttl_seconds";
     k8smetrics.go_Help :=
       "Gauge of the shortest TTL (time-to-live) of the client " +:+
       "certificate(s) managed by the auth exec plugin. The value " +:+
       "is in seconds until certificate expiry. If auth exec " +:+
       "plugins are unused or manage no TLS certificates, the " +:+
       "value will be +INF." |}.

Definition new_execPluginCertTTL : k8smetrics.Gauge :=
  k8smetrics.NewGauge execPluginCertTTL_opts.

Definition execPluginCertRotation_opts : k8smetrics.HistogramOpts :=
  {| k8smetrics.ho_Name := "rest_client_exec_plugin_certificate_rotation_age";
     k8smetrics.ho_Help :=
       "Histogram of the number of seconds the last auth exec " +:+
       "plugin client certificate lived before being rotated. " +:+
       "If auth exec plugin client certificates are unused, " +:+
       "histogram will contain no data.";
     k8smetrics.ho_Buckets :=
       map Float64.of_Z
         [ 600        (* 10 minutes *)
         ; 1800       (* 30 minutes *)
         ; 3600       (* 1  hour *)
         ; 14400      (* 4  hours *)
         ; 86400      (* 1  day *)
         ; 604800     (* 1  week *)
         ; 2592000    (* 1  month *)
         ; 7776000    (* 3  months *)
         ; 15552000   (* 6  months *)
         ; 31104000   (* 1  year *)
         ; 124416000  (* 4  years *)
         ];
     k8smetrics.ho_DeprecatedVersion := "" |}.

Definition new_execPluginCertRotation : k8smetrics.Histogram :=
  k8smetrics.NewHistogram execPluginCertRotation_opts.

(** The state once the [var] block has run and before [init] does, in a
    process whose registry holds [registered] and whose client library has
    the hooks [hooks]. *)
Definition pkg_vars (registered : list string)
    (hooks : option metrics.RegisterOpts) : World :=
  {| w_requestLatency := new_requestLatency;
     w_deprecatedRequestLatency := new_deprecatedRequestLatency;
     w_requestResult := new_requestResult;
     w_execPluginCertTTL := new_execPluginCertTTL;
     w_execPluginCertRotation := new_execPluginCertRotation;
     w_registry := registered;
     w_hooks := hooks |}.

(** ** [func init()] *)

(** The adapters that [init] hands to the client library. *)
Definition adapters : metrics.RegisterOpts :=
  {| metrics.ClientCertTTL := {| ta_m := execPluginCertTTL |};
     metrics.ClientCertRotationAge := {| oa_m := execPluginCertRotation |};
     metrics.RequestLatency :=
       {| la_m := requestLatency; la_dm := deprecatedRequestLatency |};
     metrics.RequestResult := {| ra_m := requestResult |} |}.

Definition init : M unit :=
  Gauge_Set execPluginCertTTL (Float64.Inf 1);; (* Initialize TTL to +INF *)
  legacyregistry.MustRegister (legacyregistry.OfHistogramVec requestLatency);;
  legacyregistry.MustRegister (legacyregistry.OfHistogramVec deprecatedRequestLatency);;
  legacyregistry.MustRegister (legacyregistry.OfCounterVec requestResult);;
  legacyregistry.MustRegister (legacyregistry.OfGauge execPluginCertTTL);;
  legacyregistry.MustRegister (legacyregistry.OfHistogram execPluginCertRotation);;
  metrics_Register adapters.

(** ** The adapters' methods *)

Section Adapters.

(** [url.URL] belongs to Go's library: the adapters use nothing of a URL
    but its [String()]. *)
Variable URL : Type.
Variable URL_String : URL -> string.

(** [func (l *latencyAdapter) Observe(verb string, u url.URL, latency time.Duration)] *)
Definition latencyAdapter_Observe (l : latencyAdapter) (verb : string)
    (u : URL) (latency : Duration.t) : M unit :=
  HistogramVec_Observe (la_m l) [verb; URL_String u] (Duration.Seconds latency);;
  HistogramVec_Observe (la_dm l) [verb; URL_String u] (Duration.Seconds latency).

(** [func (r *resultAdapter) Increment(code, method, host string)] *)
Definition resultAdapter_Increment (r : resultAdapter)
    (code method host : string) : M unit :=
  CounterVec_Inc (ra_m r) [code; method; host].

(** [func (e *ttlAdapter) Set(ttl *time.Duration)] *)
Definition ttlAdapter_Set (e : ttlAdapter) (ttl : option Duration.t) : M unit :=
  match ttl with
  | None => Gauge_Set (ta_m e) (Float64.Inf 1)
  | Some d => Gauge_Set (ta_m e) (Duration.Seconds d)
  end.

(** [func (r *rotationAdapter) Observe(d time.Duration)] *)
Definition rotationAdapter_Observe (r : rotationAdapter) (d : Duration.t)
  : M unit :=
  Histogram_Observe (oa_m r) (Duration.Seconds d).

(** ** The client library's side *)

(** Modelled from the spec: what the client library, which is not part of
    this package, reports through its four hooks. *)
Inductive Call : Type :=
| CallObserve (verb : string) (u : URL) (latency : Duration.t)
| CallIncrement (code method host : string)
| CallSet (ttl : option Duration.t)
| CallRotationObserve (d : Duration.t).

Definition is_Set (c : Call) : bool :=
  match c with CallSet _ => true | _ => false end.

Definition dispatch (hooks : metrics.RegisterOpts) (c : Call) : M unit :=
  match c with
  | CallObserve verb u latency =>
      latencyAdapter_Observe (metrics.RequestLatency hooks) verb u latency
  | CallIncrement code method host =>
      resultAdapter_Increment (metrics.RequestResult hooks) code method host
  | CallSet ttl => ttlAdapter_Set (metrics.ClientCertTTL hooks) ttl
  | CallRotationObserve d =>
      rotationAdapter_Observe (metrics.ClientCertRotationAge hooks) d
  end.

(** Modelled from the spec: the client library reports through the
    installed hooks; while none is installed its "default no-op
    instrumentation" is in place. *)
Definition client_call (c : Call) : M unit :=
  w ← get;
  match w_hooks w with
  | Some hooks => dispatch hooks c
  | None => mret tt
  end.

Fixpoint client_calls (cs : list Call) : M unit :=
  match cs with
  | [] => mret tt
  | c :: cs' => client_call c;; client_calls cs'
  end.

(** ** What the package declares

    One line per instrument: its kind, exported name, label names, and
    whether it carries a deprecation version. *)
Inductive Kind : Type := KHistogramVec | KCounterVec | KGauge | KHistogram.

Record Desc : Type := {
  d_kind : Kind;
  d_name : string;
  d_labels : list string;
  d_deprecated : bool
}.

Definition describe (c : legacyregistry.Registerable) (w : World) : Desc :=
  match c with
  | legacyregistry.OfHistogramVec p =>
      {| d_kind := KHistogramVec;
         d_name := legacyregistry.FQName c w;
         d_labels := k8smetrics.hv_labels (load_hv p w);
         d_deprecated :=
           negb (String.eqb (k8smetrics.ho_DeprecatedVersion
                               (k8smetrics.hv_opts (load_hv p w))) "") |}
  | legacyregistry.OfCounterVec p =>
      {| d_kind := KCounterVec;
         d_name := legacyregistry.FQName c w;
         d_labels := k8smetrics.cv_labels (load_cv p w);
         d_deprecated := false |}
  | legacyregistry.OfGauge p =>
      {| d_kind := KGauge;
         d_name := legacyregistry.FQName c w;
         d_labels := [];
         d_deprecated := false |}
  | legacyregistry.OfHistogram p =>
      {| d_kind := KHistogram;
         d_name := legacyregistry.FQName c w;
         d_labels := [];
         d_deprecated :=
           negb (String.eqb (k8smetrics.ho_DeprecatedVersion
                               (k8smetrics.h_opts (load_h p w))) "") |}
  end.

(** The instruments, in the order in which [init] registers them. *)
Definition instruments : list legacyregistry.Registerable :=
  [ legacyregistry.OfHistogramVec requestLatency;
    legacyregistry.OfHistogramVec deprecatedRequestLatency;
    legacyregistry.OfCounterVec requestResult;
    legacyregistry.OfGauge execPluginCertTTL;
    legacyregistry.OfHistogram execPluginCertRotation ].

Definition exported_names : list string :=
  [ "rest_client_request_duration_seconds";
    "rest_client_request_latency_seconds";
    "rest_client_requests_total";
    "rest_client_exec_plugin_ttl_seconds";
    "rest_client_exec_plugin_certificate_rotation_age" ].

(** The options and label names of the instruments are those of the [var]
    block. *)
Definition declared (w : World) : Prop :=
  k8smetrics.hv_opts (w_requestLatency w) = requestLatency_opts /\
  k8smetrics.hv_labels (w_requestLatency w) = ["verb"; "url"] /\
  k8smetrics.hv_opts (w_deprecatedRequestLatency w) = deprecatedRequestLatency_opts /\
  k8smetrics.hv_labels (w_deprecatedRequestLatency w) = ["verb"; "url"] /\
  k8smetrics.cv_opts (w_requestResult w) = requestResult_opts /\
  k8smetrics.cv_labels (w_requestResult w) = ["code"; "method"; "host"] /\
  k8smetrics.g_opts (w_execPluginCertTTL w) = execPluginCertTTL_opts /\
  k8smetrics.h_opts (w_execPluginCertRotation w) = execPluginCertRotation_opts.

(** The bucket bounds of the three histograms. *)
Definition bounds (w : World) : list Float64.t * list Float64.t * list Float64.t :=
  (k8smetrics.ho_Buckets (k8smetrics.hv_opts (w_requestLatency w)),
   k8smetrics.ho_Buckets (k8smetrics.hv_opts (w_deprecatedRequestLatency w)),
   k8smetrics.ho_Buckets (k8smetrics.h_opts (w_execPluginCertRotation w))).

(** What no method of an instrument writes: the options and label names of
    the instruments, together with the registry and the installed hooks,
    which the adapters do not touch either. *)
Definition config (w : World) :=
  (k8smetrics.hv_opts (w_requestLatency w),
   k8smetrics.hv_labels (w_requestLatency w),
   k8smetrics.hv_opts (w_deprecatedRequestLatency w),
   k8smetrics.hv_labels (w_deprecatedRequestLatency w),
   k8smetrics.cv_opts (w_requestResult w),
   k8smetrics.cv_labels (w_requestResult w),
   k8smetrics.g_opts (w_execPluginCertTTL w),
   k8smetrics.h_opts (w_execPluginCertRotation w),
   w_registry w,
   w_hooks w).

(** The state after the adapter installed by [init] has observed [v] under
    the labels [lvs]: both latency histograms have observed it, and every
    other component is as before. *)
Definition latency_observed (lvs : list string) (v : Float64.t) (w : World)
  : World :=
  {| w_requestLatency :=
       k8smetrics.HistogramVec_Observe lvs v (w_requestLatency w);
     w_deprecatedRequestLatency :=
       k8smetrics.HistogramVec_Observe lvs v (w_deprecatedRequestLatency w);
     w_requestResult := w_requestResult w;
     w_execPluginCertTTL := w_execPluginCertTTL w;
     w_execPluginCertRotation := w_execPluginCertRotation w;
     w_registry := w_registry w;
     w_hooks := w_hooks w |}.

(** The state after [init] has completed on [w]. *)
Definition initialized (w : World) : World :=
  set_hooks (Some adapters)
    (set_registry (w_registry w ++ exported_names)
       (store_g execPluginCertTTL
          (k8smetrics.Gauge_Set (Float64.Inf 1) (w_execPluginCertTTL w)) w)).

(** ** What a run of calls has reported *)

(** The number of [Increment] calls in [cs] for the label tuple [lvs]. *)
Fixpoint increments_of (lvs : list string) (cs : list Call) : N :=
  match cs with
  | [] => 0%N
  | CallIncrement code method host :: cs' =>
      ((if bool_decide ([code; method; host] = lvs) then 1 else 0)
       + increments_of lvs cs')%N
  | _ :: cs' => increments_of lvs cs'
  end.

(** The number of latency [Observe] calls in [cs] whose verb and URL text
    make the label tuple [lvs]. *)
Fixpoint observes_of (lvs : list string) (cs : list Call) : N :=
  match cs with
  | [] => 0%N
  | CallObserve verb u _ :: cs' =>
      ((if bool_decide ([verb; URL_String u] = lvs) then 1 else 0)
       + observes_of lvs cs')%N
  | _ :: cs' => observes_of lvs cs'
  end.

(** The durations of the rotation [Observe] calls in [cs], in order. *)
Fixpoint rotations_of (cs : list Call) : list Duration.t :=
  match cs with
  | [] => []
  | CallRotationObserve d :: cs' => d :: rotations_of cs'
  | _ :: cs' => rotations_of cs'
  end.

(** The argument of the last [Set] call in [cs], if there is one. *)
Fixpoint last_Set (cs : list Call) : option (option Duration.t) :=
  match cs with
  | [] => None
  | CallSet ttl :: cs' =>
      match last_Set cs' with
      | Some ttl' => Some ttl'
      | None => Some ttl
      end
  | _ :: cs' => last_Set cs'
  end.

(** What [Set(ttl)] stores in the gauge. *)
Definition ttl_value (ttl : option Duration.t) : Float64.t :=
  match ttl with
  | None => Float64.Inf 1
  | Some d => Duration.Seconds d
  end.

(** The two latency histograms have the same bounds and hold the same
    series. *)
Definition mirrored (w : World) : Prop :=
  k8smetrics.ho_Buckets (k8smetrics.hv_opts (w_requestLatency w))
  = k8smetrics.ho_Buckets (k8smetrics.hv_opts (w_deprecatedRequestLatency w)) /\
  k8smetrics.hv_series (w_requestLatency w)
  = k8smetrics.hv_series (w_deprecatedRequestLatency w).

(** [x] is a number, not an infinity and not NaN. *)
Definition finite (x : Float64.t) : Prop :=
  match x with
  | S754_zero _ | S754_finite _ _ _ => True
  | S754_infinity _ | S754_nan => False
  end.

(** The values of an [int64]. *)
Definition int64 (n : Z) : Prop := - 2 ^ 63 <= n < 2 ^ 63.

(** * Properties *)

(** ** Rounding keeps the sign

    What is needed of binary64 arithmetic: a non-zero integer converts to a
    non-zero number of its sign, and neither the division by [1e9] nor the
    addition of two numbers of one sign loses that sign or yields zero. *)

Section Rounding.

Local Abbreviation prec := Float64.prec.
Local Abbreviation emax := Float64.emax.
Local Abbreviation emin := Float64.emin.
Local Abbreviation signed_nonzero := Float64.signed_nonzero.

Ltac binary64 :=
  unfold Float64.emin, SpecFloat.fexp, SpecFloat.emin,
         Float64.prec, Float64.emax in *.

Lemma digits2_pos_bounds p :
  2 ^ (Zpos (digits2_pos p) - 1) <= Zpos p < 2 ^ Zpos (digits2_pos p).
Proof.
  induction p as [p IH | p IH |]; cbn [digits2_pos];
    [rewrite Pos2Z.inj_succ .. | cbn; lia];
    replace (Z.succ (Zpos (digits2_pos p)) - 1)
      with (Z.succ (Zpos (digits2_pos p) - 1)) by lia;
    rewrite !Z.pow_succ_r by lia; lia.
Qed.

Lemma digits2_pos_iter_xO m d :
  Zpos (digits2_pos (Pos.iter xO m d)) = Zpos (digits2_pos m) + Zpos d.
Proof.
  induction d as [| d IH] using Pos.peano_ind.
  - cbn [Pos.iter digits2_pos]. lia.
  - rewrite Pos.iter_succ. cbn [digits2_pos]. lia.
Qed.

(** Shifting right by [p] bits leaves at least [2^k] of a mantissa that is
    at least [2^(k+p)]. *)
Lemma shr_1_lower k mrs :
  0 <= k -> 2 ^ (k + 1) <= shr_m mrs -> 2 ^ k <= shr_m (shr_1 mrs).
Proof.
  intros Hk. destruct mrs as [m r s]. cbn [shr_m].
  rewrite Z.pow_add_r by lia. change (2 ^ 1) with 2.
  assert (0 < 2 ^ k) by (apply Z.pow_pos_nonneg; lia).
  destruct m as [| [p | p |] | [p | p |]]; cbn [shr_1 shr_m]; lia.
Qed.

Lemma iter_shr_lower p : forall k mrs,
  0 <= k -> 2 ^ (k + Zpos p) <= shr_m mrs ->
  2 ^ k <= shr_m (SpecFloat.iter_pos shr_1 p mrs).
Proof.
  induction p as [p IH | p IH |]; intros k mrs Hk H; cbn [SpecFloat.iter_pos].
  - apply IH; [lia |]. apply IH; [lia |]. apply shr_1_lower; [lia |].
    replace (k + Zpos p + Zpos p + 1) with (k + Zpos p~1) by lia. exact H.
  - apply IH; [lia |]. apply IH; [lia |].
    replace (k + Zpos p + Zpos p) with (k + Zpos p~0) by lia. exact H.
  - apply shr_1_lower; assumption.
Qed.

Lemma shr_record_of_loc_m m l : shr_m (shr_record_of_loc m l) = m.
Proof. destruct l as [| []]; reflexivity. Qed.

(** Above the least exponent the shift to the format never takes every bit
    of the mantissa. *)
Lemma shr_fexp_pos m e l :
  emin <= e ->
  1 <= shr_m (fst (shr_fexp prec emax (Zpos m) e l)) /\
  emin <= snd (shr_fexp prec emax (Zpos m) e l).
Proof.
  intros He. unfold shr_fexp, shr.
  pose proof (digits2_pos_bounds m) as [Hlo _].
  cbn [Zdigits2].
  set (dg := Zpos (digits2_pos m)) in *.
  assert (Hn : fexp prec emax (dg + e) - e <= dg - 1) by (binary64; lia).
  destruct (fexp prec emax (dg + e) - e) as [| n | n] eqn:En; cbn [fst snd];
    rewrite ?shr_record_of_loc_m; [lia | | lia].
  split; [| lia].
  change 1 with (2 ^ 0). apply iter_shr_lower; [lia |].
  rewrite shr_record_of_loc_m.
  transitivity (2 ^ (dg - 1)); [| exact Hlo].
  apply Z.pow_le_mono_r; lia.
Qed.

Lemma round_nearest_even_ge m l : m <= round_nearest_even m l.
Proof. destruct l as [| []]; cbn; try lia. destruct (Z.even m); lia. Qed.

Lemma binary_round_aux_signed s m e l :
  emin <= e ->
  signed_nonzero s (binary_round_aux prec emax s (Zpos m) e l).
Proof.
  intros He. unfold binary_round_aux.
  pose proof (shr_fexp_pos m e l He) as [H1 H2].
  destruct (shr_fexp prec emax (Zpos m) e l) as [mrs' e']. cbn [fst snd] in *.
  pose proof (round_nearest_even_ge (shr_m mrs') (loc_of_shr_record mrs')) as Hr.
  destruct (round_nearest_even (shr_m mrs') (loc_of_shr_record mrs'))
    as [| m1 | m1]; try lia.
  pose proof (shr_fexp_pos m1 e' loc_Exact H2) as [H3 H4].
  destruct (shr_fexp prec emax (Zpos m1) e' loc_Exact) as [mrs'' e''].
  cbn [fst snd] in *.
  destruct (shr_m mrs'') as [| m2 | m2]; try lia.
  destruct (e'' <=? emax - prec); cbn; auto.
Qed.

Lemma binary_round_signed s m e :
  emin <= e -> signed_nonzero s (binary_round prec emax s m e).
Proof.
  intros He. unfold binary_round, shl_align.
  set (e' := fexp prec emax (Zpos (digits2_pos m) + e)).
  assert (emin <= e') by (unfold e'; binary64; lia).
  destruct (e' - e); apply binary_round_aux_signed; assumption.
Qed.

(** A mantissa of 53 bits needs no rounding. *)
Lemma binary_round_aux_exact s m e :
  Zpos (digits2_pos m) = prec -> emin <= e <= emax - prec ->
  binary_round_aux prec emax s (Zpos m) e loc_Exact = S754_finite s m e.
Proof.
  intros Hd [He1 He2].
  assert (Hz : fexp prec emax (Zdigits2 (Zpos m) + e) - e = 0).
  { cbn [Zdigits2]. rewrite Hd. binary64. lia. }
  unfold binary_round_aux, shr_fexp. rewrite Hz. cbn [shr shr_record_of_loc].
  cbn [shr_m loc_of_shr_record round_nearest_even].
  rewrite Hz. cbn [shr shr_record_of_loc shr_m].
  apply Z.leb_le in He2. rewrite He2. reflexivity.
Qed.

(** An integer of at most 53 bits converts exactly, to a normal number. *)
Lemma binary_round_small s p :
  Zpos (digits2_pos p) <= prec ->
  exists m,
    binary_round prec emax s p 0
    = S754_finite s m (Zpos (digits2_pos p) - prec) /\
    Zpos (digits2_pos m) = prec.
Proof.
  intros Hd. unfold binary_round.
  assert (Hf : fexp prec emax (Zpos (digits2_pos p) + 0)
               = Zpos (digits2_pos p) - prec) by (binary64; lia).
  rewrite Hf. unfold shl_align.
  destruct (Zpos (digits2_pos p) - prec - 0) as [| n | n] eqn:En; [| lia |].
  - exists p. split; [| lia].
    rewrite binary_round_aux_exact; [f_equal; lia | lia | binary64; lia].
  - exists (Pos.iter xO p n).
    assert (Zpos (digits2_pos (Pos.iter xO p n)) = prec)
      by (rewrite digits2_pos_iter_xO; lia).
    split; [| assumption].
    apply binary_round_aux_exact; [assumption | binary64; lia].
Qed.

(** The quotient of two normal numbers, unless it falls under the least
    exponent, is not zero and has the sign of the quotient. *)
Lemma SFdiv_signed s1 m1 e1 s2 m2 e2 :
  Zpos (digits2_pos m1) = prec -> Zpos (digits2_pos m2) = prec ->
  emin <= e1 - e2 - prec ->
  signed_nonzero (xorb s1 s2)
    (SFdiv prec emax (S754_finite s1 m1 e1) (S754_finite s2 m2 e2)).
Proof.
  intros H1 H2 He. unfold SFdiv, SFdiv_core_binary. cbn [Zdigits2].
  rewrite H1, H2.
  assert (Hf : fexp prec emax (prec + e1 - (prec + e2)) = e1 - e2 - prec)
    by (binary64; lia).
  rewrite Hf.
  replace (Z.min (e1 - e2 - prec) (e1 - e2)) with (e1 - e2 - prec)
    by (binary64; lia).
  replace (e1 - e2 - (e1 - e2 - prec)) with prec by lia.
  change (match prec with
          | Z0 => Zpos m1
          | Zpos _ => Z.shiftl (Zpos m1) prec
          | Zneg _ => 0
          end) with (Z.shiftl (Zpos m1) prec).
  rewrite Z.shiftl_mul_pow2 by (binary64; lia).
  pose proof (digits2_pos_bounds m1) as [Hlo1 _].
  pose proof (digits2_pos_bounds m2) as [_ Hhi2].
  rewrite H1 in Hlo1. rewrite H2 in Hhi2.
  assert (Hq : 0 < Zpos m1 * 2 ^ prec / Zpos m2).
  { apply Z.div_str_pos. split; [lia |].
    assert (0 < 2 ^ prec) by (apply Z.pow_pos_nonneg; binary64; lia).
    nia. }
  unfold Z.div in Hq.
  destruct (Z.div_eucl (Zpos m1 * 2 ^ prec) (Zpos m2)) as [q r].
  destruct q as [| q | q]; try lia.
  apply binary_round_aux_signed. exact He.
Qed.

Lemma SFadd_signed_neg x y :
  signed_nonzero true x -> signed_nonzero true y ->
  signed_nonzero true (SFadd prec emax x y).
Proof.
  destruct x as [sx | sx | | sx mx ex], y as [sy | sy | | sy my ey];
    cbn [Float64.signed_nonzero]; try tauto.
  - intros Hx Hy. subst sx sy. reflexivity.
  - intros [Hsx Hx] [Hsy Hy]. subst sx sy. unfold SFadd. cbn [cond_Zopp].
    cbn [Z.opp Z.add binary_normalize].
    apply binary_round_signed. lia.
Qed.

Lemma SFadd_zero_l s y :
  signed_nonzero true y -> SFadd prec emax (S754_zero s) y = y.
Proof. destruct y; cbn; tauto. Qed.

Lemma SFadd_zero_r s x :
  signed_nonzero true x -> SFadd prec emax x (S754_zero s) = x.
Proof. destruct x; cbn; tauto. Qed.

Lemma of_Z_neg_signed p : signed_nonzero true (Float64.of_Z (Zneg p)).
Proof. apply binary_round_signed. binary64. lia. Qed.

(** [float64(nsec)/1e9] for [-1e9 < nsec < 0]. *)
Lemma nanos_signed p :
  Zpos p < 1000000000 ->
  signed_nonzero true
    (SFdiv prec emax (Float64.of_Z (Zneg p)) (Float64.of_Z 1000000000)).
Proof.
  intros Hp.
  pose proof (digits2_pos_bounds p) as [Hlo _].
  assert (Hd : Zpos (digits2_pos p) <= 30).
  { destruct (Z_le_gt_dec (Zpos (digits2_pos p)) 30) as [| Hgt]; [assumption |].
    exfalso.
    assert (2 ^ 30 <= 2 ^ (Zpos (digits2_pos p) - 1))
      by (apply Z.pow_le_mono_r; lia).
    change (2 ^ 30) with 1073741824 in *. lia. }
  destruct (binary_round_small true p) as (m & Hm & Hdm); [binary64; lia |].
  unfold Float64.of_Z at 1. cbn [binary_normalize]. rewrite Hm.
  change (Float64.of_Z 1000000000)
    with (S754_finite false 8388608000000000 (-23)).
  change true with (xorb true false) at 2.
  apply SFdiv_signed; [assumption | reflexivity | binary64; lia].
Qed.

Lemma Seconds_signed d : d < 0 -> signed_nonzero true (Duration.Seconds d).
Proof.
  intros Hd. unfold Duration.Seconds, Float64.add, Float64.div.
  change Duration.Second with 1000000000.
  pose proof (Z.quot_rem' d 1000000000) as Hqr.
  assert (Hr : - 1000000000 < Z.rem d 1000000000 <= 0)
    by (apply (Z.rem_bound_pos_neg d 1000000000); lia).
  assert (Hq : Z.quot d 1000000000 <= 0)
    by (apply Z.quot_le_upper_bound; lia).
  revert Hqr Hr Hq.
  generalize (Z.quot d 1000000000) (Z.rem d 1000000000). intros q r Hqr Hr Hq.
  destruct q as [| q | q]; [| lia |]; destruct r as [| r | r]; try lia.
  - change (Float64.of_Z 0) with (S754_zero false).
    rewrite SFadd_zero_l; apply nanos_signed; lia.
  - change (SFdiv prec emax (Float64.of_Z 0) (Float64.of_Z 1000000000))
      with (S754_zero false).
    rewrite SFadd_zero_r; apply of_Z_neg_signed.
  - apply SFadd_signed_neg; [apply of_Z_neg_signed | apply nanos_signed; lia].
Qed.

(** A negative duration is a negative number of seconds. *)
Lemma Seconds_negative d : d < 0 -> Float64.negative (Duration.Seconds d).
Proof.
  intros Hd. unfold Float64.negative, Float64.ltb, Float64.zero.
  pose proof (Seconds_signed d Hd) as H.
  destruct (Duration.Seconds d) as [| s | | s m e]; cbn in H; try tauto.
  - subst s. reflexivity.
  - destruct H as [-> _]. reflexivity.
Qed.

End Rounding.

(** ** Registration *)

Lemma MustRegister_fresh (c : legacyregistry.Registerable) (w : World) :
  legacyregistry.FQName c w ∉ w_registry w ->
  legacyregistry.MustRegister c w
  = Done tt (set_registry (w_registry w ++ [legacyregistry.FQName c w]) w).
Proof.
  intros Hfresh. unfold legacyregistry.MustRegister, mbind, M_bind, get.
  rewrite bool_decide_eq_false_2 by exact Hfresh. reflexivity.
Qed.

Lemma MustRegister_duplicate (c : legacyregistry.Registerable) (w : World) :
  legacyregistry.FQName c w ∈ w_registry w ->
  exists msg, legacyregistry.MustRegister c w = Panic msg.
Proof.
  intros Hdup. unfold legacyregistry.MustRegister, mbind, M_bind, get.
  rewrite bool_decide_eq_true_2 by exact Hdup. eexists. reflexivity.
Qed.

Lemma exported_names_NoDup : NoDup exported_names.
Proof. by_evaluation. Qed.

Lemma declared_names (w : World) :
  declared w ->
  map (fun c => legacyregistry.FQName c w) instruments = exported_names.
Proof.
  intros (H1 & _ & H2 & _ & H3 & _ & H4 & H5).
  cbn [map instruments legacyregistry.FQName load_hv load_cv load_g load_h].
  rewrite H1, H2, H3, H4, H5. reflexivity.
Qed.

Lemma declared_pkg_vars registered hooks : declared (pkg_vars registered hooks).
Proof. repeat split. Qed.

Lemma init_completes (w : World) :
  declared w ->
  Forall (fun name => name ∉ w_registry w) exported_names ->
  init w = Done tt (initialized w).
Proof.
  intros (H1 & _ & H2 & _ & H3 & _ & H4 & H5) Hfresh.
  rewrite Forall_forall in Hfresh.
  unfold init, mbind, M_bind, Gauge_Set, modify.
  repeat match goal with
  | |- context [legacyregistry.MustRegister ?c ?w0] =>
      rewrite (MustRegister_fresh c w0);
      [ cbn [legacyregistry.FQName load_hv load_cv load_g load_h store_g
             set_registry w_registry w_requestLatency w_deprecatedRequestLatency
             w_requestResult w_execPluginCertTTL w_execPluginCertRotation
             k8smetrics.Gauge_Set k8smetrics.g_opts]
      | cbn [legacyregistry.FQName load_hv load_cv load_g load_h store_g
             set_registry w_registry w_requestLatency w_deprecatedRequestLatency
             w_requestResult w_execPluginCertTTL w_execPluginCertRotation
             k8smetrics.Gauge_Set k8smetrics.g_opts];
        rewrite ?H1, ?H2, ?H3, ?H4, ?H5;
        rewrite ?elem_of_app, ?list_elem_of_singleton;
        intros Hin;
        repeat (destruct Hin as [Hin | Hin]; [| discriminate Hin]);
        revert Hin; apply Hfresh;
        by_evaluation ]
  end.
  unfold metrics_Register, modify, initialized.
  rewrite H1, H2, H3, H4, H5.
  cbn. rewrite <- !app_assoc. reflexivity.
Qed.

(** ** One observation in a histogram series *)

Lemma observe_count bs v h :
  k8smetrics.hd_count (k8smetrics.observe bs v h)
  = (k8smetrics.hd_count h + 1)%N.
Proof. reflexivity. Qed.

Lemma observe_sum bs v h :
  k8smetrics.hd_sum (k8smetrics.observe bs v h)
  = Float64.add (k8smetrics.hd_sum h) v.
Proof. reflexivity. Qed.

Lemma HistogramVec_Observe_series lvs v hv :
  k8smetrics.HistogramVec_series lvs (k8smetrics.HistogramVec_Observe lvs v hv)
  = k8smetrics.observe (k8smetrics.ho_Buckets (k8smetrics.hv_opts hv)) v
      (k8smetrics.HistogramVec_series lvs hv).
Proof.
  unfold k8smetrics.HistogramVec_series at 1, k8smetrics.HistogramVec_Observe.
  cbn. rewrite lookup_insert_eq. reflexivity.
Qed.

Lemma HistogramVec_Observe_other lvs lvs' v hv :
  lvs' <> lvs ->
  k8smetrics.hv_series (k8smetrics.HistogramVec_Observe lvs v hv) !! lvs'
  = k8smetrics.hv_series hv !! lvs'.
Proof.
  intros Hne. unfold k8smetrics.HistogramVec_Observe. cbn.
  apply lookup_insert_ne. congruence.
Qed.

Lemma CounterVec_Inc_value lvs cv :
  k8smetrics.CounterVec_value lvs (k8smetrics.CounterVec_Inc lvs cv)
  = (k8smetrics.CounterVec_value lvs cv + 1)%N.
Proof.
  unfold k8smetrics.CounterVec_value at 1, k8smetrics.CounterVec_Inc.
  cbn. rewrite lookup_insert_eq. reflexivity.
Qed.

Lemma CounterVec_Inc_other lvs lvs' cv :
  lvs' <> lvs ->
  k8smetrics.cv_series (k8smetrics.CounterVec_Inc lvs cv) !! lvs'
  = k8smetrics.cv_series cv !! lvs'.
Proof.
  intros Hne. unfold k8smetrics.CounterVec_Inc. cbn.
  apply lookup_insert_ne. congruence.
Qed.

(** ** The latency adapter, for any duration *)

Lemma latencyAdapter_Observe_effect verb u d w :
  latencyAdapter_Observe (metrics.RequestLatency adapters) verb u d w
  = Done tt (latency_observed [verb; URL_String u] (Duration.Seconds d) w).
Proof. reflexivity. Qed.

Lemma latency_observed_series lvs v w p :
  k8smetrics.HistogramVec_series lvs (load_hv p (latency_observed lvs v w))
  = k8smetrics.observe
      (k8smetrics.ho_Buckets (k8smetrics.hv_opts (load_hv p w))) v
      (k8smetrics.HistogramVec_series lvs (load_hv p w)).
Proof. destruct p; cbn [load_hv latency_observed w_requestLatency w_deprecatedRequestLatency]; apply HistogramVec_Observe_series. Qed.

Lemma latency_observed_other lvs lvs' v w p :
  lvs' <> lvs ->
  k8smetrics.hv_series (load_hv p (latency_observed lvs v w)) !! lvs'
  = k8smetrics.hv_series (load_hv p w) !! lvs'.
Proof. intros Hne. destruct p; cbn [load_hv latency_observed w_requestLatency w_deprecatedRequestLatency]; apply HistogramVec_Observe_other, Hne. Qed.

(** C1: for every verb, URL and duration [d >= 0], [Observe] of the latency
    adapter completes, and in both the primary and the deprecated latency
    histogram ([p] ranges over the two) the series of the labels
    [(verb, u.String())] has observed [d.Seconds()], so that its count is
    one more than before; every other series of the two histograms and every
    other component of the state is as before. *)
Theorem latencyAdapter_Observe_records
    (verb : string) (u : URL) (d : Duration.t) (w : World) :
  0 <= d ->
  let lvs := [verb; URL_String u] in
  let v := Duration.Seconds d in
  exists w',
    latencyAdapter_Observe (metrics.RequestLatency adapters) verb u d w
    = Done tt w' /\
    (forall p,
       k8smetrics.HistogramVec_series lvs (load_hv p w')
       = k8smetrics.observe
           (k8smetrics.ho_Buckets (k8smetrics.hv_opts (load_hv p w))) v
           (k8smetrics.HistogramVec_series lvs (load_hv p w))) /\
    (forall p,
       k8smetrics.hd_count (k8smetrics.HistogramVec_series lvs (load_hv p w'))
       = (k8smetrics.hd_count (k8smetrics.HistogramVec_series lvs (load_hv p w)) + 1)%N) /\
    (forall p lvs', lvs' <> lvs ->
       k8smetrics.hv_series (load_hv p w') !! lvs'
       = k8smetrics.hv_series (load_hv p w) !! lvs') /\
    (forall p, k8smetrics.hv_opts (load_hv p w') = k8smetrics.hv_opts (load_hv p w)
               /\ k8smetrics.hv_labels (load_hv p w') = k8smetrics.hv_labels (load_hv p w)) /\
    w_requestResult w' = w_requestResult w /\
    w_execPluginCertTTL w' = w_execPluginCertTTL w /\
    w_execPluginCertRotation w' = w_execPluginCertRotation w /\
    w_registry w' = w_registry w /\
    w_hooks w' = w_hooks w.
Proof.
  intros _ lvs v. exists (latency_observed lvs v w).
  split; [apply latencyAdapter_Observe_effect |].
  split; [intros p; apply latency_observed_series |].
  split; [intros p; rewrite latency_observed_series; apply observe_count |].
  split; [intros p lvs' Hne; apply latency_observed_other, Hne |].
  split; [intros []; split; reflexivity |].
  repeat split.
Qed.

(** C10: for every negative duration [d], [Observe] of the latency adapter
    completes as for any other duration: the value [d.Seconds()], which is
    negative, is observed as it is by the series of [(verb, u.String())] in
    both latency histograms ([p] ranges over the two), whose count grows by
    one and whose sum has [d.Seconds()] added. *)
Theorem latencyAdapter_Observe_negative
    (verb : string) (u : URL) (d : Duration.t) (w : World) :
  d < 0 ->
  let lvs := [verb; URL_String u] in
  let v := Duration.Seconds d in
  Float64.negative v /\
  exists w',
    latencyAdapter_Observe (metrics.RequestLatency adapters) verb u d w
    = Done tt w' /\
    (forall p,
       k8smetrics.HistogramVec_series lvs (load_hv p w')
       = k8smetrics.observe
           (k8smetrics.ho_Buckets (k8smetrics.hv_opts (load_hv p w))) v
           (k8smetrics.HistogramVec_series lvs (load_hv p w))) /\
    (forall p,
       k8smetrics.hd_count (k8smetrics.HistogramVec_series lvs (load_hv p w'))
       = (k8smetrics.hd_count (k8smetrics.HistogramVec_series lvs (load_hv p w)) + 1)%N) /\
    (forall p,
       k8smetrics.hd_sum (k8smetrics.HistogramVec_series lvs (load_hv p w'))
       = Float64.add
           (k8smetrics.hd_sum (k8smetrics.HistogramVec_series lvs (load_hv p w))) v).
Proof.
  intros Hd lvs v. split; [apply Seconds_negative, Hd |].
  exists (latency_observed lvs v w).
  split; [apply latencyAdapter_Observe_effect |].
  split; [intros p; apply latency_observed_series |].
  split; intros p; rewrite latency_observed_series.
  - apply observe_count.
  - apply observe_sum.
Qed.

(** ** The result adapter *)

(** C5: one [Increment(code, method, host)] completes and makes the counter
    of the label tuple [(code, method, host)] one more than it was; every
    other series of the counter, and every other component of the state, is
    as before. *)
Theorem resultAdapter_Increment_one
    (code method host : string) (w : World) :
  let lvs := [code; method; host] in
  exists w',
    resultAdapter_Increment (metrics.RequestResult adapters) code method host w
    = Done tt w' /\
    k8smetrics.CounterVec_value lvs (w_requestResult w')
    = (k8smetrics.CounterVec_value lvs (w_requestResult w) + 1)%N /\
    (forall lvs', lvs' <> lvs ->
       k8smetrics.cv_series (w_requestResult w') !! lvs'
       = k8smetrics.cv_series (w_requestResult w) !! lvs') /\
    k8smetrics.cv_opts (w_requestResult w') = k8smetrics.cv_opts (w_requestResult w) /\
    k8smetrics.cv_labels (w_requestResult w') = k8smetrics.cv_labels (w_requestResult w) /\
    w_requestLatency w' = w_requestLatency w /\
    w_deprecatedRequestLatency w' = w_deprecatedRequestLatency w /\
    w_execPluginCertTTL w' = w_execPluginCertTTL w /\
    w_execPluginCertRotation w' = w_execPluginCertRotation w /\
    w_registry w' = w_registry w /\
    w_hooks w' = w_hooks w.
Proof.
  intros lvs. eexists. split; [reflexivity |].
  cbn [store_cv load_cv ra_m metrics.RequestResult adapters w_requestResult].
  split; [apply CounterVec_Inc_value |].
  split; [intros lvs' Hne; apply CounterVec_Inc_other, Hne |].
  repeat split.
Qed.

(** ** The TTL adapter *)

(** C2: whatever the state, [Set(nil)] completes, it does not fail, and
    leaves the TTL gauge at [+Inf]; nothing else changes. *)
Theorem ttlAdapter_Set_nil (w : World) :
  exists w',
    ttlAdapter_Set (metrics.ClientCertTTL adapters) None w = Done tt w' /\
    k8smetrics.g_value (w_execPluginCertTTL w') = S754_infinity false /\
    k8smetrics.g_opts (w_execPluginCertTTL w') = k8smetrics.g_opts (w_execPluginCertTTL w) /\
    w_requestLatency w' = w_requestLatency w /\
    w_deprecatedRequestLatency w' = w_deprecatedRequestLatency w /\
    w_requestResult w' = w_requestResult w /\
    w_execPluginCertRotation w' = w_execPluginCertRotation w /\
    w_registry w' = w_registry w /\
    w_hooks w' = w_hooks w.
Proof. eexists. split; [reflexivity |]. repeat split. Qed.

(** C3: whatever the state and the duration [d], [Set(&d)] completes and
    leaves the TTL gauge at [d.Seconds()], whatever it held before; for a
    negative [d] that value is negative, it is not clamped. Nothing else
    changes. *)
Theorem ttlAdapter_Set_duration (d : Duration.t) (w : World) :
  exists w',
    ttlAdapter_Set (metrics.ClientCertTTL adapters) (Some d) w = Done tt w' /\
    k8smetrics.g_value (w_execPluginCertTTL w') = Duration.Seconds d /\
    (d < 0 -> Float64.negative (k8smetrics.g_value (w_execPluginCertTTL w'))) /\
    k8smetrics.g_opts (w_execPluginCertTTL w') = k8smetrics.g_opts (w_execPluginCertTTL w) /\
    w_requestLatency w' = w_requestLatency w /\
    w_deprecatedRequestLatency w' = w_deprecatedRequestLatency w /\
    w_requestResult w' = w_requestResult w /\
    w_execPluginCertRotation w' = w_execPluginCertRotation w /\
    w_registry w' = w_registry w /\
    w_hooks w' = w_hooks w.
Proof.
  eexists. split; [reflexivity |].
  split; [reflexivity |].
  split; [intros Hd; apply Seconds_negative, Hd |].
  repeat split.
Qed.

(** ** The rotation adapter *)

(** C6: [Observe(d)] of the rotation adapter completes; the rotation-age
    histogram then counts one more sample and its sum is the former sum
    plus [d.Seconds()], the sample being counted in the bucket of
    [d.Seconds()]; nothing else changes. *)
Theorem rotationAdapter_Observe_records (d : Duration.t) (w : World) :
  let v := Duration.Seconds d in
  let h := w_execPluginCertRotation w in
  exists w',
    rotationAdapter_Observe (metrics.ClientCertRotationAge adapters) d w
    = Done tt w' /\
    k8smetrics.hd_count (k8smetrics.h_data (w_execPluginCertRotation w'))
    = (k8smetrics.hd_count (k8smetrics.h_data h) + 1)%N /\
    k8smetrics.hd_sum (k8smetrics.h_data (w_execPluginCertRotation w'))
    = Float64.add (k8smetrics.hd_sum (k8smetrics.h_data h)) v /\
    k8smetrics.hd_buckets (k8smetrics.h_data (w_execPluginCertRotation w'))
    = alter (fun n => (n + 1)%N)
        (k8smetrics.bucket_index (k8smetrics.ho_Buckets (k8smetrics.h_opts h)) v)
        (k8smetrics.hd_buckets (k8smetrics.h_data h)) /\
    k8smetrics.h_opts (w_execPluginCertRotation w') = k8smetrics.h_opts h /\
    w_requestLatency w' = w_requestLatency w /\
    w_deprecatedRequestLatency w' = w_deprecatedRequestLatency w /\
    w_requestResult w' = w_requestResult w /\
    w_execPluginCertTTL w' = w_execPluginCertTTL w /\
    w_registry w' = w_registry w /\
    w_hooks w' = w_hooks w.
Proof. intros v h. eexists. split; [reflexivity |]. repeat split. Qed.

(** ** What a call from the client library leaves alone *)

Lemma store_hv_config p lvs v w :
  config (store_hv p (k8smetrics.HistogramVec_Observe lvs v (load_hv p w)) w)
  = config w.
Proof. destruct p; reflexivity. Qed.

Lemma store_hv_gauge p hv w :
  w_execPluginCertTTL (store_hv p hv w) = w_execPluginCertTTL w.
Proof. destruct p; reflexivity. Qed.

Lemma dispatch_frame hooks (c : Call) (w : World) :
  exists w',
    dispatch hooks c w = Done tt w' /\
    config w' = config w /\
    (is_Set c = false -> w_execPluginCertTTL w' = w_execPluginCertTTL w).
Proof.
  destruct hooks as [[[]] [[]] [m dm] [[]]].
  destruct c as [verb u d | code method host | [d |] | d];
    cbn [dispatch metrics.RequestLatency metrics.RequestResult
         metrics.ClientCertTTL metrics.ClientCertRotationAge];
    try (eexists; split; [reflexivity |]; split; [reflexivity |];
         intros H; solve [reflexivity | discriminate H]).
  eexists. split; [reflexivity |].
  cbn [la_m la_dm]. split.
  - rewrite store_hv_config. apply store_hv_config.
  - intros _. rewrite store_hv_gauge. apply store_hv_gauge.
Qed.

Lemma client_call_frame (c : Call) (w : World) :
  exists w',
    client_call c w = Done tt w' /\
    config w' = config w /\
    (is_Set c = false -> w_execPluginCertTTL w' = w_execPluginCertTTL w).
Proof.
  unfold client_call, mbind, M_bind, get.
  destruct (w_hooks w) as [hooks |].
  - apply dispatch_frame.
  - exists w. repeat split.
Qed.

Lemma client_calls_frame (cs : list Call) : forall w : World,
  exists w',
    client_calls cs w = Done tt w' /\
    config w' = config w /\
    (forallb (fun c => negb (is_Set c)) cs = true ->
     w_execPluginCertTTL w' = w_execPluginCertTTL w).
Proof.
  induction cs as [| c cs IH]; intros w.
  - exists w. repeat split.
  - destruct (client_call_frame c w) as (w1 & Hc & Hcfg1 & Hg1).
    destruct (IH w1) as (w2 & Hcs & Hcfg2 & Hg2).
    exists w2. cbn [client_calls]. unfold mbind, M_bind. rewrite Hc.
    split; [exact Hcs |]. split; [congruence |].
    cbn [forallb]. intros H. apply andb_true_iff in H as [Hc' Hcs'].
    rewrite Hg2 by exact Hcs'. apply Hg1.
    destruct (is_Set c); [discriminate Hc' | reflexivity].
Qed.

Lemma config_bounds w w' : config w' = config w -> bounds w' = bounds w.
Proof. unfold config, bounds. intros H. injection H as -> _ -> _ _ _ _ -> _ _. reflexivity. Qed.

(** ** Initialization *)

(** C4: in a process where none of the five names is registered yet, [init]
    completes and leaves the TTL gauge at [+Inf], and the gauge still reads
    [+Inf] after any calls of the client library among which there is no
    [Set]. *)
Theorem ttl_gauge_starts_at_inf
    (registered : list string) (hooks : option metrics.RegisterOpts)
    (cs : list Call) :
  Forall (fun name => name ∉ registered) exported_names ->
  forallb (fun c => negb (is_Set c)) cs = true ->
  exists w1 w2,
    init (pkg_vars registered hooks) = Done tt w1 /\
    k8smetrics.g_value (w_execPluginCertTTL w1) = S754_infinity false /\
    client_calls cs w1 = Done tt w2 /\
    k8smetrics.g_value (w_execPluginCertTTL w2) = S754_infinity false.
Proof.
  intros Hfresh Hcs.
  destruct (client_calls_frame cs (initialized (pkg_vars registered hooks)))
    as (w2 & Hrun & _ & Hg).
  exists (initialized (pkg_vars registered hooks)), w2.
  split; [apply init_completes; [apply declared_pkg_vars | exact Hfresh] |].
  split; [reflexivity |].
  split; [exact Hrun |].
  rewrite Hg by exact Hcs. reflexivity.
Qed.

(** C7: the package declares five instruments and no other: two histograms
    labelled [verb, url], the second one deprecated, a counter labelled
    [code, method, host], a gauge and a histogram without labels, under the
    five exported names; started on an empty registry, [init] registers
    exactly these names, in this order. *)
Theorem five_instruments
    (registered : list string) (hooks : option metrics.RegisterOpts) :
  map (fun c => describe c (pkg_vars registered hooks)) instruments
  = [ {| d_kind := KHistogramVec;
         d_name := "rest_client_request_duration_seconds";
         d_labels := ["verb"; "url"]; d_deprecated := false |};
      {| d_kind := KHistogramVec;
         d_name := "rest_client_request_latency_seconds";
         d_labels := ["verb"; "url"]; d_deprecated := true |};
      {| d_kind := KCounterVec;
         d_name := "rest_client_requests_total";
         d_labels := ["code"; "method"; "host"]; d_deprecated := false |};
      {| d_kind := KGauge;
         d_name := "rest_client_exec_plugin_ttl_seconds";
         d_labels := []; d_deprecated := false |};
      {| d_kind := KHistogram;
         d_name := "rest_client_exec_plugin_certificate_rotation_age";
         d_labels := []; d_deprecated := false |} ] /\
  (forall c : legacyregistry.Registerable, c ∈ instruments) /\
  NoDup instruments /\
  length instruments = 5%nat /\
  exists w',
    init (pkg_vars [] hooks) = Done tt w' /\
    w_registry w'
    = map d_name (map (fun c => describe c (pkg_vars [] hooks)) instruments).
Proof.
  split; [reflexivity |].
  split; [intros [[] | [] | [] | []]; by_evaluation |].
  split; [by_evaluation |].
  split; [reflexivity |].
  exists (initialized (pkg_vars [] hooks)). split; reflexivity.
Qed.

Lemma init_panics (w : World) :
  declared w ->
  (exists name, name ∈ exported_names /\ name ∈ w_registry w) ->
  exists msg, init w = Panic msg.
Proof.
  intros (H1 & _ & H2 & _ & H3 & _ & H4 & H5) (name & Hin & Hreg).
  unfold init, mbind, M_bind, Gauge_Set, modify.
  repeat match goal with
  | |- context [legacyregistry.MustRegister ?c ?w0] =>
      destruct (decide (legacyregistry.FQName c w0 ∈ w_registry w0)) as [Hdup | Hfresh];
      [ destruct (MustRegister_duplicate c w0 Hdup) as [msg Hmsg];
        rewrite Hmsg; exists msg; reflexivity
      | rewrite (MustRegister_fresh c w0 Hfresh);
        cbn [legacyregistry.FQName load_hv load_cv load_g load_h store_g
             set_registry w_registry w_requestLatency w_deprecatedRequestLatency
             w_requestResult w_execPluginCertTTL w_execPluginCertRotation
             k8smetrics.Gauge_Set k8smetrics.g_opts] in Hfresh |- *;
        rewrite ?H1, ?H2, ?H3, ?H4, ?H5 in Hfresh;
        rewrite ?not_elem_of_app in Hfresh;
        repeat (destruct Hfresh as [Hfresh _]);
        revert Hfresh ]
  end.
  intros F5 F4 F3 F2 F1. exfalso.
  unfold exported_names in Hin.
  rewrite !elem_of_cons, elem_of_nil in Hin.
  destruct Hin as [-> | [-> | [-> | [-> | [-> | []]]]]]; contradiction.
Qed.

(** C9: registering an instrument under a name that the registry already
    holds panics; [init] panics as soon as one of its five names is already
    registered; and in particular, where a first [init] has completed, a
    second one panics. A panic ends the process: there is no state after
    it, so none in which only some of the instruments are registered. *)
Theorem duplicate_registration_is_fatal :
  (forall c w,
     legacyregistry.FQName c w ∈ w_registry w ->
     exists msg, legacyregistry.MustRegister c w = Panic msg) /\
  (forall w,
     declared w ->
     (exists name, name ∈ exported_names /\ name ∈ w_registry w) ->
     exists msg, init w = Panic msg) /\
  (forall registered hooks,
     Forall (fun name => name ∉ registered) exported_names ->
     exists w1 msg,
       init (pkg_vars registered hooks) = Done tt w1 /\
       init w1 = Panic msg).
Proof.
  split; [exact MustRegister_duplicate |].
  split; [exact init_panics |].
  intros registered hooks Hfresh.
  pose proof (declared_pkg_vars registered hooks) as Hdecl.
  destruct (init_panics (initialized (pkg_vars registered hooks))) as [msg Hmsg].
  - exact Hdecl.
  - exists "rest_client_requests_total". split.
    + by_evaluation.
    + cbn. rewrite elem_of_app. right.
      by_evaluation.
  - exists (initialized (pkg_vars registered hooks)), msg.
    split; [apply init_completes; assumption | exact Hmsg].
Qed.

(** ** Buckets *)

(** C8: the bounds of both latency histograms are [0.001 * 2^i] for
    [i = 0..9], that is 0.001, 0.002, ..., 0.512; those of the
    rotation-age histogram are the eleven given numbers of seconds, from
    ten minutes to four years of 360 days. They are those of the [var]
    block for good: after [init] and after any calls of the client library
    the bounds are the same. *)
Theorem histogram_buckets_fixed :
  let latency :=
    [ Float64.lit 1 1000; Float64.lit 2 1000; Float64.lit 4 1000;
      Float64.lit 8 1000; Float64.lit 16 1000; Float64.lit 32 1000;
      Float64.lit 64 1000; Float64.lit 128 1000; Float64.lit 256 1000;
      Float64.lit 512 1000 ] in
  let rotation :=
    map Float64.of_Z
      [ 600; 1800; 3600; 14400; 86400; 604800; 2592000; 7776000;
        15552000; 31104000; 124416000 ] in
  latency
  = map (fun i => Float64.mul (Float64.lit 1 1000) (Float64.of_Z (2 ^ i)))
      [0; 1; 2; 3; 4; 5; 6; 7; 8; 9] /\
  rotation
  = map Duration.Seconds
      [ 10 * Duration.Minute; 30 * Duration.Minute; 1 * Duration.Hour;
        4 * Duration.Hour; 24 * Duration.Hour; 7 * (24 * Duration.Hour);
        30 * (24 * Duration.Hour); 90 * (24 * Duration.Hour);
        180 * (24 * Duration.Hour); 360 * (24 * Duration.Hour);
        4 * (360 * (24 * Duration.Hour)) ] /\
  (forall registered hooks,
     bounds (pkg_vars registered hooks) = (latency, latency, rotation)) /\
  (forall registered hooks (cs : list Call),
     Forall (fun name => name ∉ registered) exported_names ->
     exists w1 w2,
       init (pkg_vars registered hooks) = Done tt w1 /\
       client_calls cs w1 = Done tt w2 /\
       bounds w1 = (latency, latency, rotation) /\
       bounds w2 = (latency, latency, rotation)).
Proof.
  intros latency rotation.
  split; [vm_compute; reflexivity |].
  split; [vm_compute; reflexivity |].
  assert (Hb : forall registered hooks,
             bounds (pkg_vars registered hooks) = (latency, latency, rotation)).
  { intros registered hooks. vm_compute. reflexivity. }
  split; [exact Hb |].
  intros registered hooks cs Hfresh.
  destruct (client_calls_frame cs (initialized (pkg_vars registered hooks)))
    as (w2 & Hrun & Hcfg & _).
  exists (initialized (pkg_vars registered hooks)), w2.
  split; [apply init_completes; [apply declared_pkg_vars | exact Hfresh] |].
  split; [exact Hrun |].
  assert (Hb1 : bounds (initialized (pkg_vars registered hooks))
                = (latency, latency, rotation)) by apply Hb.
  split; [exact Hb1 |].
  rewrite (config_bounds _ _ Hcfg). exact Hb1.
Qed.

(** * Further properties *)

(** ** When [init] completes *)

(** X1: on a state whose instruments are those of the [var] block, [init]
    completes exactly when none of its five names is registered yet; it
    then leaves the registry extended by the five names, in order, the
    adapters installed, and the TTL gauge at [+Inf]. *)
Theorem init_completes_iff (w : World) :
  declared w ->
  ((exists w', init w = Done tt w') <->
   Forall (fun name => name ∉ w_registry w) exported_names) /\
  (forall w',
     init w = Done tt w' ->
     w_registry w' = w_registry w ++ exported_names /\
     w_hooks w' = Some adapters /\
     k8smetrics.g_value (w_execPluginCertTTL w') = S754_infinity false /\
     declared w').
Proof.
  intros Hdecl.
  assert (Hiff : (exists w', init w = Done tt w') <->
                 Forall (fun name => name ∉ w_registry w) exported_names).
  { split.
    - intros [w' Hrun].
      apply Forall_forall. intros name Hin Hreg.
      destruct (init_panics w Hdecl) as [msg Hmsg]; [exists name; auto |].
      congruence.
    - intros Hfresh. exists (initialized w). apply init_completes; assumption. }
  split; [exact Hiff |].
  intros w' Hrun.
  assert (Hfresh : Forall (fun name => name ∉ w_registry w) exported_names)
    by (apply Hiff; exists w'; exact Hrun).
  rewrite (init_completes w Hdecl Hfresh) in Hrun.
  injection Hrun as <-.
  repeat split; apply Hdecl.
Qed.

(** ** Requests counted *)

Lemma client_call_ready (c : Call) (w : World) :
  w_hooks w = Some adapters -> client_call c w = dispatch adapters c w.
Proof. intros H. unfold client_call, mbind, M_bind, get. rewrite H. reflexivity. Qed.

Lemma config_hooks w w' : config w' = config w -> w_hooks w' = w_hooks w.
Proof. unfold config. intros H. injection H as _ _ _ _ _ _ _ _ _ ->. reflexivity. Qed.

Lemma client_call_counter (c : Call) (lvs : list string) (w : World) :
  w_hooks w = Some adapters ->
  exists w',
    client_call c w = Done tt w' /\
    w_hooks w' = Some adapters /\
    k8smetrics.CounterVec_value lvs (w_requestResult w')
    = (k8smetrics.CounterVec_value lvs (w_requestResult w)
       + increments_of lvs [c])%N.
Proof.
  intros Hready. rewrite (client_call_ready c w Hready).
  destruct c as [verb u d | code method host | [d |] | d];
    (eexists; split; [reflexivity |]; split; [exact Hready |]);
    cbn [increments_of]; rewrite ?N.add_0_r; try reflexivity.
  cbn [store_cv load_cv ra_m metrics.RequestResult adapters w_requestResult].
  case_bool_decide as Hlvs.
  - subst lvs. apply CounterVec_Inc_value.
  - rewrite N.add_0_r. unfold k8smetrics.CounterVec_value at 1.
    rewrite CounterVec_Inc_other by congruence. reflexivity.
Qed.

(** X2: once the adapters are installed, after any calls of the client
    library the counter of each label tuple has grown by the number of
    [Increment] calls made for exactly that tuple, whatever else was
    reported in between. *)
Theorem requests_total_counts_increments
    (cs : list Call) (lvs : list string) (w : World) :
  w_hooks w = Some adapters ->
  exists w',
    client_calls cs w = Done tt w' /\
    k8smetrics.CounterVec_value lvs (w_requestResult w')
    = (k8smetrics.CounterVec_value lvs (w_requestResult w)
       + increments_of lvs cs)%N.
Proof.
  revert w. induction cs as [| c cs IH]; intros w Hready.
  - exists w. split; [reflexivity |]. cbn. rewrite N.add_0_r. reflexivity.
  - destruct (client_call_counter c lvs w Hready) as (w1 & Hc & Hready1 & Hv1).
    destruct (IH w1 Hready1) as (w2 & Hcs & Hv2).
    exists w2. cbn [client_calls]. unfold mbind, M_bind. rewrite Hc.
    split; [exact Hcs |].
    rewrite Hv2, Hv1.
    destruct c; cbn [increments_of]; lia.
Qed.

(** X3: two [Increment] calls give the same state in either order. *)
Theorem Increment_commutes (code1 method1 host1 code2 method2 host2 : string)
    (w : World) :
  (resultAdapter_Increment (metrics.RequestResult adapters) code1 method1 host1;;
   resultAdapter_Increment (metrics.RequestResult adapters) code2 method2 host2) w
  = (resultAdapter_Increment (metrics.RequestResult adapters) code2 method2 host2;;
     resultAdapter_Increment (metrics.RequestResult adapters) code1 method1 host1) w.
Proof.
  unfold mbind, M_bind, resultAdapter_Increment, CounterVec_Inc, modify.
  cbn [ra_m metrics.RequestResult adapters store_cv load_cv w_requestResult
       w_requestLatency w_deprecatedRequestLatency w_execPluginCertTTL
       w_execPluginCertRotation w_registry w_hooks].
  f_equal. f_equal.
  unfold k8smetrics.CounterVec_Inc, k8smetrics.CounterVec_value.
  cbn [k8smetrics.cv_opts k8smetrics.cv_labels k8smetrics.cv_series].
  f_equal.
  destruct (decide ([code1; method1; host1] = [code2; method2; host2])) as [-> | Hne].
  - reflexivity.
  - rewrite !lookup_insert_ne by congruence.
    apply insert_insert_ne. congruence.
Qed.

(** ** Latencies observed *)

Lemma HistogramVec_Observe_series_other lvs lvs' v hv :
  lvs' <> lvs ->
  k8smetrics.HistogramVec_series lvs' (k8smetrics.HistogramVec_Observe lvs v hv)
  = k8smetrics.HistogramVec_series lvs' hv.
Proof.
  intros Hne. unfold k8smetrics.HistogramVec_series.
  rewrite HistogramVec_Observe_other by exact Hne. reflexivity.
Qed.

Lemma client_call_latency (c : Call) (lvs : list string) (p : HistogramVecVar)
    (w : World) :
  w_hooks w = Some adapters ->
  exists w',
    client_call c w = Done tt w' /\
    w_hooks w' = Some adapters /\
    k8smetrics.hd_count (k8smetrics.HistogramVec_series lvs (load_hv p w'))
    = (k8smetrics.hd_count (k8smetrics.HistogramVec_series lvs (load_hv p w))
       + observes_of lvs [c])%N.
Proof.
  intros Hready. rewrite (client_call_ready c w Hready).
  destruct c as [verb u d | code method host | [d |] | d];
    (eexists; split; [reflexivity |]; split; [exact Hready |]);
    cbn [observes_of]; rewrite ?N.add_0_r;
    try (destruct p; reflexivity).
  case_bool_decide as Hlvs.
  - subst lvs. destruct p;
      cbn [load_hv store_hv la_m la_dm metrics.RequestLatency adapters
           w_requestLatency w_deprecatedRequestLatency];
      rewrite HistogramVec_Observe_series; reflexivity.
  - rewrite N.add_0_r. destruct p;
      cbn [load_hv store_hv la_m la_dm metrics.RequestLatency adapters
           w_requestLatency w_deprecatedRequestLatency];
      rewrite HistogramVec_Observe_series_other by congruence; reflexivity.
Qed.

(** X4: once the adapters are installed, after any calls of the client
    library the series of each label tuple, in the primary as in the
    deprecated latency histogram ([p] ranges over the two), has counted as
    many more samples as there were latency [Observe] calls whose verb and
    URL text make that tuple. *)
Theorem latency_counts_observes
    (cs : list Call) (lvs : list string) (p : HistogramVecVar) (w : World) :
  w_hooks w = Some adapters ->
  exists w',
    client_calls cs w = Done tt w' /\
    k8smetrics.hd_count (k8smetrics.HistogramVec_series lvs (load_hv p w'))
    = (k8smetrics.hd_count (k8smetrics.HistogramVec_series lvs (load_hv p w))
       + observes_of lvs cs)%N.
Proof.
  revert w. induction cs as [| c cs IH]; intros w Hready.
  - exists w. split; [reflexivity |]. cbn. rewrite N.add_0_r. reflexivity.
  - destruct (client_call_latency c lvs p w Hready) as (w1 & Hc & Hready1 & Hv1).
    destruct (IH w1 Hready1) as (w2 & Hcs & Hv2).
    exists w2. cbn [client_calls]. unfold mbind, M_bind. rewrite Hc.
    split; [exact Hcs |].
    rewrite Hv2, Hv1.
    destruct c; cbn [observes_of]; lia.
Qed.

Lemma client_call_mirrored (c : Call) (w : World) :
  w_hooks w = Some adapters -> mirrored w ->
  exists w',
    client_call c w = Done tt w' /\ w_hooks w' = Some adapters /\ mirrored w'.
Proof.
  intros Hready [Hb Hs]. rewrite (client_call_ready c w Hready).
  destruct c as [verb u d | code method host | [d |] | d];
    (eexists; split; [reflexivity |]; split; [exact Hready |]);
    try (split; [exact Hb | exact Hs]).
  split; [exact Hb |].
  cbn [load_hv store_hv la_m la_dm metrics.RequestLatency adapters
       w_requestLatency w_deprecatedRequestLatency].
  unfold k8smetrics.HistogramVec_Observe, k8smetrics.HistogramVec_series.
  cbn [k8smetrics.hv_series k8smetrics.hv_opts].
  rewrite Hb, Hs. reflexivity.
Qed.

(** X5: the deprecated latency histogram mirrors the primary one. Where
    the two hold the same series over the same bounds, as they do after
    [init], they still do after any calls of the client library: label
    tuple by label tuple they have the same count, the same sum and the
    same bucket counters. *)
Theorem deprecated_latency_mirrors (cs : list Call) (w : World) :
  w_hooks w = Some adapters ->
  mirrored w ->
  exists w',
    client_calls cs w = Done tt w' /\
    k8smetrics.hv_series (w_deprecatedRequestLatency w')
    = k8smetrics.hv_series (w_requestLatency w').
Proof.
  revert w. induction cs as [| c cs IH]; intros w Hready Hm.
  - exists w. split; [reflexivity |]. symmetry. apply Hm.
  - destruct (client_call_mirrored c w Hready Hm) as (w1 & Hc & Hready1 & Hm1).
    destruct (IH w1 Hready1 Hm1) as (w2 & Hcs & Hs2).
    exists w2. cbn [client_calls]. unfold mbind, M_bind. rewrite Hc.
    split; [exact Hcs | exact Hs2].
Qed.

(** ** Rotations observed *)

Lemma client_call_rotation (c : Call) (w : World) :
  w_hooks w = Some adapters ->
  exists w',
    client_call c w = Done tt w' /\
    w_hooks w' = Some adapters /\
    k8smetrics.hd_count (k8smetrics.h_data (w_execPluginCertRotation w'))
    = (k8smetrics.hd_count (k8smetrics.h_data (w_execPluginCertRotation w))
       + N.of_nat (length (rotations_of [c])))%N /\
    k8smetrics.hd_sum (k8smetrics.h_data (w_execPluginCertRotation w'))
    = fold_left Float64.add (map Duration.Seconds (rotations_of [c]))
        (k8smetrics.hd_sum (k8smetrics.h_data (w_execPluginCertRotation w))).
Proof.
  intros Hready. rewrite (client_call_ready c w Hready).
  destruct c as [verb u d | code method host | [d |] | d];
    (eexists; split; [reflexivity |]; split; [exact Hready |]);
    cbn [rotations_of length map fold_left N.of_nat]; rewrite ?N.add_0_r;
    split; reflexivity.
Qed.

(** X6: once the adapters are installed, after any calls of the client
    library the rotation-age histogram has counted one more sample per
    rotation [Observe] call, and its sum is the former sum to which the
    seconds of these calls were added one after the other, in the order of
    the calls. *)
Theorem rotation_age_accumulates (cs : list Call) (w : World) :
  w_hooks w = Some adapters ->
  exists w',
    client_calls cs w = Done tt w' /\
    k8smetrics.hd_count (k8smetrics.h_data (w_execPluginCertRotation w'))
    = (k8smetrics.hd_count (k8smetrics.h_data (w_execPluginCertRotation w))
       + N.of_nat (length (rotations_of cs)))%N /\
    k8smetrics.hd_sum (k8smetrics.h_data (w_execPluginCertRotation w'))
    = fold_left Float64.add (map Duration.Seconds (rotations_of cs))
        (k8smetrics.hd_sum (k8smetrics.h_data (w_execPluginCertRotation w))).
Proof.
  revert w. induction cs as [| c cs IH]; intros w Hready.
  - exists w. split; [reflexivity |]. cbn. rewrite N.add_0_r. split; reflexivity.
  - destruct (client_call_rotation c w Hready) as (w1 & Hc & Hready1 & Hn1 & Hs1).
    destruct (IH w1 Hready1) as (w2 & Hcs & Hn2 & Hs2).
    exists w2. cbn [client_calls]. unfold mbind, M_bind. rewrite Hc.
    split; [exact Hcs |].
    rewrite Hn2, Hn1, Hs2, Hs1.
    destruct c; cbn [rotations_of length map fold_left N.of_nat];
      rewrite ?N.add_0_r; split; try reflexivity.
    lia.
Qed.

(** ** The TTL that is read *)

Lemma client_call_ttl (c : Call) (w : World) :
  w_hooks w = Some adapters ->
  exists w',
    client_call c w = Done tt w' /\
    w_hooks w' = Some adapters /\
    k8smetrics.g_value (w_execPluginCertTTL w')
    = match last_Set [c] with
      | Some ttl => ttl_value ttl
      | None => k8smetrics.g_value (w_execPluginCertTTL w)
      end.
Proof.
  intros Hready. rewrite (client_call_ready c w Hready).
  destruct c as [verb u d | code method host | [d |] | d];
    (eexists; split; [reflexivity |]; split; [exact Hready |]);
    reflexivity.
Qed.

(** X7: the TTL gauge is a level, the last [Set] wins. Once the adapters
    are installed, after any calls of the client library the gauge reads
    what the last [Set] among them stored, [+Inf] for [nil] and the seconds
    of the duration otherwise, and what it read before when there was no
    [Set] among them. *)
Theorem ttl_gauge_reads_last_Set (cs : list Call) (w : World) :
  w_hooks w = Some adapters ->
  exists w',
    client_calls cs w = Done tt w' /\
    k8smetrics.g_value (w_execPluginCertTTL w')
    = match last_Set cs with
      | Some ttl => ttl_value ttl
      | None => k8smetrics.g_value (w_execPluginCertTTL w)
      end.
Proof.
  revert w. induction cs as [| c cs IH]; intros w Hready.
  - exists w. split; reflexivity.
  - destruct (client_call_ttl c w Hready) as (w1 & Hc & Hready1 & Hv1).
    destruct (IH w1 Hready1) as (w2 & Hcs & Hv2).
    exists w2. cbn [client_calls]. unfold mbind, M_bind. rewrite Hc.
    split; [exact Hcs |].
    rewrite Hv2, Hv1.
    destruct c as [verb u d | code method host | ttl | d];
      cbn [last_Set]; destruct (last_Set cs); reflexivity.
Qed.

(** ** The sign and the size of a number of seconds *)

Section Seconds.

Local Abbreviation prec := Float64.prec.
Local Abbreviation emax := Float64.emax.
Local Abbreviation emin := Float64.emin.
Local Abbreviation signed_nonzero := Float64.signed_nonzero.

Ltac binary64 :=
  unfold Float64.emin, SpecFloat.fexp, SpecFloat.emin,
         Float64.prec, Float64.emax in *.

Lemma SFadd_signed s x y :
  signed_nonzero s x -> signed_nonzero s y ->
  signed_nonzero s (SFadd prec emax x y).
Proof.
  destruct x as [sx | sx | | sx mx ex], y as [sy | sy | | sy my ey];
    cbn [Float64.signed_nonzero]; try tauto;
    intros Hx Hy;
    repeat match goal with H : _ /\ _ |- _ => destruct H as [H ?] end;
    subst sx sy; try (destruct s; reflexivity).
  unfold SFadd.
  destruct s; cbn [cond_Zopp Z.opp Z.add binary_normalize];
    apply binary_round_signed; lia.
Qed.

Lemma SFadd_signed_zero_l s0 s y :
  signed_nonzero s y -> SFadd prec emax (S754_zero s0) y = y.
Proof. destruct y; cbn; tauto. Qed.

Lemma SFadd_signed_zero_r s0 s x :
  signed_nonzero s x -> SFadd prec emax x (S754_zero s0) = x.
Proof. destruct x; cbn; tauto. Qed.

Lemma of_Z_pos_signed p : signed_nonzero false (Float64.of_Z (Zpos p)).
Proof. apply binary_round_signed. binary64. lia. Qed.

Lemma digits2_pos_le p k : Zpos p < 2 ^ k -> Zpos (digits2_pos p) <= k.
Proof.
  intros Hp. pose proof (digits2_pos_bounds p) as [Hlo _].
  destruct (Z_le_gt_dec (Zpos (digits2_pos p)) k) as [| Hgt]; [assumption |].
  exfalso.
  assert (2 ^ k <= 2 ^ (Zpos (digits2_pos p) - 1)); [| lia].
  destruct (Z_lt_le_dec k 0) as [Hneg | Hk].
  - rewrite (Z.pow_neg_r 2 k Hneg) in Hp. lia.
  - apply Z.pow_le_mono_r; lia.
Qed.

(** [float64(nsec)/1e9] for [0 < nsec < 1e9]. *)
Lemma nanos_pos_signed p :
  Zpos p < 1000000000 ->
  signed_nonzero false
    (SFdiv prec emax (Float64.of_Z (Zpos p)) (Float64.of_Z 1000000000)).
Proof.
  intros Hp.
  assert (Hd : Zpos (digits2_pos p) <= 30)
    by (apply digits2_pos_le; change (2 ^ 30) with 1073741824; lia).
  destruct (binary_round_small false p) as (m & Hm & Hdm); [binary64; lia |].
  unfold Float64.of_Z at 1. cbn [binary_normalize]. rewrite Hm.
  change (Float64.of_Z 1000000000)
    with (S754_finite false 8388608000000000 (-23)).
  change false with (xorb false false) at 1.
  apply SFdiv_signed; [assumption | reflexivity | binary64; lia].
Qed.

Lemma Seconds_pos_signed d : 0 < d -> signed_nonzero false (Duration.Seconds d).
Proof.
  intros Hd. unfold Duration.Seconds, Float64.add, Float64.div.
  change Duration.Second with 1000000000.
  pose proof (Z.quot_rem' d 1000000000) as Hqr.
  assert (Hr : 0 <= Z.rem d 1000000000 < 1000000000)
    by (apply Z.rem_bound_pos; lia).
  assert (Hq : 0 <= Z.quot d 1000000000)
    by (apply Z.quot_pos; lia).
  revert Hqr Hr Hq.
  generalize (Z.quot d 1000000000) (Z.rem d 1000000000). intros q r Hqr Hr Hq.
  destruct q as [| q | q]; [| | lia]; destruct r as [| r | r]; try lia.
  - change (Float64.of_Z 0) with (S754_zero false).
    rewrite (SFadd_signed_zero_l false false); apply nanos_pos_signed; lia.
  - change (SFdiv prec emax (Float64.of_Z 0) (Float64.of_Z 1000000000))
      with (S754_zero false).
    rewrite (SFadd_signed_zero_r false false); apply of_Z_pos_signed.
  - apply SFadd_signed; [apply of_Z_pos_signed | apply nanos_pos_signed; lia].
Qed.

Lemma signed_nonzero_ltb s x :
  signed_nonzero s x ->
  Float64.ltb x Float64.zero = s /\ Float64.ltb Float64.zero x = negb s /\
  x <> Float64.zero.
Proof.
  destruct x as [| sx | | sx m e]; cbn [Float64.signed_nonzero]; try tauto.
  - intros <-. destruct sx; repeat split; discriminate.
  - intros [<- _]. destruct sx; repeat split; discriminate.
Qed.

(** The seconds of a duration have the sign of the duration. *)
Lemma Seconds_sign d :
  (Float64.ltb (Duration.Seconds d) Float64.zero = true <-> d < 0) /\
  (Duration.Seconds d = Float64.zero <-> d = 0) /\
  (Float64.ltb Float64.zero (Duration.Seconds d) = true <-> 0 < d).
Proof.
  destruct (Z.lt_trichotomy d 0) as [Hd | [Hd | Hd]].
  - destruct (signed_nonzero_ltb _ _ (Seconds_signed d Hd)) as (H1 & H2 & H3).
    rewrite H1, H2. cbn [negb].
    split; [tauto |]. split; split; intros; try lia; try discriminate.
    contradiction.
  - subst d. change (Duration.Seconds 0) with Float64.zero.
    split; [| split]; split; intros; try lia; try discriminate; reflexivity.
  - destruct (signed_nonzero_ltb _ _ (Seconds_pos_signed d Hd)) as (H1 & H2 & H3).
    rewrite H1, H2. cbn [negb].
    split; [| split]; split; intros; try lia; try discriminate; try reflexivity.
    contradiction.
Qed.

(** A whole number of seconds is converted as that integer is. *)
Lemma Seconds_whole n : Duration.Seconds (n * Duration.Second) = Float64.of_Z n.
Proof.
  unfold Duration.Seconds, Float64.add, Float64.div.
  change Duration.Second with 1000000000.
  rewrite Z.quot_mul, Z.rem_mul by lia.
  change (SFdiv prec emax (Float64.of_Z 0) (Float64.of_Z 1000000000))
    with (S754_zero false).
  destruct n as [| p | p].
  - reflexivity.
  - apply (SFadd_signed_zero_r false false), of_Z_pos_signed.
  - apply (SFadd_signed_zero_r false true), of_Z_neg_signed.
Qed.

End Seconds.

(** ** The seconds of an [int64] are a finite number *)

Section SecondsFinite.

Local Abbreviation prec := Float64.prec.
Local Abbreviation emax := Float64.emax.
Local Abbreviation emin := Float64.emin.

Ltac binary64 :=
  unfold Float64.emin, SpecFloat.fexp, SpecFloat.emin,
         Float64.prec, Float64.emax in *.

Lemma iter_xO_value m d : Zpos (Pos.iter xO m d) = Zpos m * 2 ^ Zpos d.
Proof.
  induction d as [| d IH] using Pos.peano_ind.
  - cbn [Pos.iter]. change (2 ^ 1) with 2. lia.
  - rewrite Pos.iter_succ, Pos2Z.inj_xO, IH, Pos2Z.inj_succ, Z.pow_succ_r by lia.
    lia.
Qed.

Lemma shl_align_value mx ex ez :
  ez <= ex -> Zpos (fst (shl_align mx ex ez)) = Zpos mx * 2 ^ (ex - ez).
Proof.
  intros Hle. unfold shl_align.
  destruct (ez - ex) as [| d | d] eqn:Ed; cbn [fst]; [| lia |].
  - replace (ex - ez) with 0 by lia. lia.
  - rewrite iter_xO_value. replace (ex - ez) with (Zpos d) by lia. reflexivity.
Qed.

Lemma shr_1_upper mrs :
  0 <= shr_m mrs -> 0 <= shr_m (shr_1 mrs) <= shr_m mrs.
Proof.
  destruct mrs as [m r s]. cbn [shr_m].
  destruct m as [| [p | p |] | [p | p |]]; cbn [shr_1 shr_m]; lia.
Qed.

Lemma iter_shr_upper p : forall mrs,
  0 <= shr_m mrs ->
  0 <= shr_m (SpecFloat.iter_pos shr_1 p mrs) <= shr_m mrs.
Proof.
  induction p as [p IH | p IH |]; intros mrs H; cbn [SpecFloat.iter_pos].
  - pose proof (shr_1_upper mrs H) as H1.
    pose proof (IH _ (proj1 H1)) as H2.
    pose proof (IH _ (proj1 H2)) as H3. lia.
  - pose proof (IH _ H) as H2.
    pose proof (IH _ (proj1 H2)) as H3. lia.
  - apply shr_1_upper, H.
Qed.

(** The shift to the format takes no more than [D - 53] bits of a
    mantissa under [2^D]. *)
Lemma shr_fexp_bounds m e l D :
  Zpos m < 2 ^ D -> emin <= e ->
  shr_m (fst (shr_fexp prec emax (Zpos m) e l)) <= Zpos m /\
  e <= snd (shr_fexp prec emax (Zpos m) e l) <= e + Z.max 0 (D - prec).
Proof.
  intros Hm He. unfold shr_fexp, shr.
  pose proof (digits2_pos_le m D Hm) as Hd.
  cbn [Zdigits2].
  set (dg := Zpos (digits2_pos m)) in *.
  assert (Hn : fexp prec emax (dg + e) - e <= Z.max 0 (D - prec))
    by (binary64; lia).
  destruct (fexp prec emax (dg + e) - e) as [| n | n] eqn:En; cbn [fst snd];
    rewrite ?shr_record_of_loc_m; [lia | | lia].
  split; [| lia].
  pose proof (iter_shr_upper n (shr_record_of_loc (Zpos m) l)) as Hup.
  rewrite shr_record_of_loc_m in Hup. apply Hup. lia.
Qed.

Lemma round_nearest_even_le m l : round_nearest_even m l <= m + 1.
Proof. destruct l as [| []]; cbn; try lia. destruct (Z.even m); lia. Qed.

Lemma binary_round_aux_finite s m e l D :
  Zpos m < 2 ^ D -> emin <= e ->
  e + Z.max 0 (D - prec) + Z.max 0 (D + 1 - prec) <= emax - prec ->
  exists m' e',
    binary_round_aux prec emax s (Zpos m) e l = S754_finite s m' e' /\
    Zpos m' <= 2 ^ D /\
    e <= e' <= e + Z.max 0 (D - prec) + Z.max 0 (D + 1 - prec).
Proof.
  intros Hm He Hmax. unfold binary_round_aux.
  assert (HD : 0 <= D).
  { destruct (Z_lt_le_dec D 0) as [Hneg |]; [| assumption].
    rewrite (Z.pow_neg_r 2 D Hneg) in Hm. lia. }
  pose proof (shr_fexp_pos m e l He) as [H1 _].
  pose proof (shr_fexp_bounds m e l D Hm He) as [H2 H3].
  destruct (shr_fexp prec emax (Zpos m) e l) as [mrs' e']. cbn [fst snd] in *.
  pose proof (round_nearest_even_ge (shr_m mrs') (loc_of_shr_record mrs')) as Hr1.
  pose proof (round_nearest_even_le (shr_m mrs') (loc_of_shr_record mrs')) as Hr2.
  destruct (round_nearest_even (shr_m mrs') (loc_of_shr_record mrs'))
    as [| m1 | m1]; try lia.
  assert (Hm1 : Zpos m1 < 2 ^ (D + 1))
    by (rewrite Z.pow_add_r by lia; change (2 ^ 1) with 2; lia).
  assert (He' : emin <= e') by lia.
  pose proof (shr_fexp_pos m1 e' loc_Exact He') as [H4 _].
  pose proof (shr_fexp_bounds m1 e' loc_Exact (D + 1) Hm1 He') as [H5 H6].
  destruct (shr_fexp prec emax (Zpos m1) e' loc_Exact) as [mrs'' e''].
  cbn [fst snd] in *.
  destruct (shr_m mrs'') as [| m2 | m2]; try lia.
  assert (Hle : (e'' <=? emax - prec) = true) by (apply Z.leb_le; lia).
  rewrite Hle. exists m2, e''. split; [reflexivity |]. lia.
Qed.

Lemma binary_round_finite s m e D :
  Zpos m < 2 ^ D -> emin <= e ->
  e + 2 * Z.max 1 (D + 1 - prec) <= emax - prec ->
  exists m' e', binary_round prec emax s m e = S754_finite s m' e'.
Proof.
  intros Hm He Hmax. unfold binary_round, shl_align.
  pose proof (digits2_pos_le m D Hm) as Hd.
  set (e0 := fexp prec emax (Zpos (digits2_pos m) + e)).
  assert (He0 : emin <= e0 /\ Zpos (digits2_pos m) + e - prec <= e0)
    by (unfold e0; binary64; lia).
  destruct (e0 - e) as [| d | d] eqn:Ed.
  - destruct (binary_round_aux_finite s m e loc_Exact D) as (m' & e' & H & _);
      [assumption | assumption | lia | eauto].
  - destruct (binary_round_aux_finite s m e loc_Exact D) as (m' & e' & H & _);
      [assumption | assumption | lia | eauto].
  - assert (Hmz : Zpos (Pos.iter xO m d) < 2 ^ prec).
    { pose proof (digits2_pos_bounds (Pos.iter xO m d)) as [_ Hhi].
      rewrite digits2_pos_iter_xO in Hhi.
      eapply Z.lt_le_trans; [exact Hhi |].
      apply Z.pow_le_mono_r; lia. }
    destruct (binary_round_aux_finite s (Pos.iter xO m d) e0 loc_Exact prec)
      as (m' & e' & H & _); [assumption | lia | binary64; lia | eauto].
Qed.

Lemma SFdiv_finite s1 m1 e1 s2 m2 e2 :
  Zpos (digits2_pos m1) = prec -> Zpos (digits2_pos m2) = prec ->
  emin <= e1 - e2 - prec -> e1 - e2 - prec + 3 <= emax - prec ->
  exists m' e',
    SFdiv prec emax (S754_finite s1 m1 e1) (S754_finite s2 m2 e2)
    = S754_finite (xorb s1 s2) m' e' /\
    Zpos m' <= 2 ^ 54 /\
    e1 - e2 - prec <= e' <= e1 - e2 - prec + 3.
Proof.
  intros H1 H2 He Hmax. unfold SFdiv, SFdiv_core_binary. cbn [Zdigits2].
  rewrite H1, H2.
  assert (Hf : fexp prec emax (prec + e1 - (prec + e2)) = e1 - e2 - prec)
    by (binary64; lia).
  rewrite Hf.
  replace (Z.min (e1 - e2 - prec) (e1 - e2)) with (e1 - e2 - prec)
    by (binary64; lia).
  replace (e1 - e2 - (e1 - e2 - prec)) with prec by lia.
  change (match prec with
          | Z0 => Zpos m1
          | Zpos _ => Z.shiftl (Zpos m1) prec
          | Zneg _ => 0
          end) with (Z.shiftl (Zpos m1) prec).
  rewrite Z.shiftl_mul_pow2 by (binary64; lia).
  pose proof (digits2_pos_bounds m1) as [Hlo1 Hhi1].
  pose proof (digits2_pos_bounds m2) as [Hlo2 Hhi2].
  rewrite H1 in Hlo1, Hhi1. rewrite H2 in Hlo2, Hhi2.
  change (2 ^ (prec - 1)) with 4503599627370496 in *.
  change (2 ^ prec) with 9007199254740992 in *.
  assert (Hq : 0 < Zpos m1 * 9007199254740992 / Zpos m2 < 2 ^ 54).
  { split.
    - apply Z.div_str_pos. lia.
    - apply Z.div_lt_upper_bound; [lia |].
      change (2 ^ 54) with 18014398509481984. nia. }
  unfold Z.div in Hq.
  destruct (Z.div_eucl (Zpos m1 * 9007199254740992) (Zpos m2)) as [q r].
  destruct q as [| q | q]; try lia.
  destruct (binary_round_aux_finite (xorb s1 s2) q (e1 - e2 - prec)
              (new_location (Zpos m2) r) 54) as (m' & e' & H & Hm' & He');
    [lia | exact He | binary64; lia |].
  exists m', e'. split; [exact H |]. split; [exact Hm' |]. binary64. lia.
Qed.

Lemma SFadd_finite s ma ea mb eb D :
  emin <= ea -> emin <= eb ->
  Zpos ma * 2 ^ (ea - Z.min ea eb) + Zpos mb * 2 ^ (eb - Z.min ea eb) < 2 ^ D ->
  Z.min ea eb + 2 * Z.max 1 (D + 1 - prec) <= emax - prec ->
  exists m e,
    SFadd prec emax (S754_finite s ma ea) (S754_finite s mb eb)
    = S754_finite s m e.
Proof.
  intros Hea Heb Hsum Hmax. unfold SFadd.
  rewrite <- (shl_align_value ma ea (Z.min ea eb)) in Hsum by lia.
  rewrite <- (shl_align_value mb eb (Z.min ea eb)) in Hsum by lia.
  destruct s; cbn [cond_Zopp Z.opp Z.add binary_normalize];
    apply (binary_round_finite _ _ _ D); solve [exact Hmax | lia].
Qed.

(** [float64(n)] for [0 < |n| < 2^34]: a normal number, exactly. *)
Lemma of_small_shape s p :
  Zpos p < 2 ^ 34 ->
  exists m e,
    binary_round prec emax s p 0 = S754_finite s m e /\
    Zpos m < 2 ^ 53 /\ -52 <= e <= -19.
Proof.
  intros Hp. pose proof (digits2_pos_le p 34 Hp) as Hd.
  destruct (binary_round_small s p) as (m & Hm & Hdm); [binary64; lia |].
  exists m, (Zpos (digits2_pos p) - prec). split; [exact Hm |].
  pose proof (digits2_pos_bounds m) as [_ Hhi]. rewrite Hdm in Hhi.
  split; [exact Hhi |]. binary64. lia.
Qed.

(** [float64(nsec)/1e9] for [0 < |nsec| < 1e9]. *)
Lemma nanos_shape s p :
  Zpos p < 1000000000 ->
  exists m e,
    SFdiv prec emax (binary_round prec emax s p 0) (Float64.of_Z 1000000000)
    = S754_finite s m e /\
    Zpos m <= 2 ^ 54 /\ -82 <= e <= -50.
Proof.
  intros Hp.
  assert (Hd : Zpos (digits2_pos p) <= 30)
    by (apply digits2_pos_le; change (2 ^ 30) with 1073741824; lia).
  destruct (binary_round_small s p) as (m & Hm & Hdm); [binary64; lia |].
  rewrite Hm.
  change (Float64.of_Z 1000000000)
    with (S754_finite false 8388608000000000 (-23)).
  destruct (SFdiv_finite s m (Zpos (digits2_pos p) - prec)
              false 8388608000000000 (-23))
    as (m' & e' & H & Hm' & He');
    [assumption | reflexivity | binary64; lia | binary64; lia |].
  rewrite xorb_false_r in H.
  exists m', e'. split; [exact H |]. split; [exact Hm' |]. binary64. lia.
Qed.

Lemma seconds_sum_finite s q r :
  Zpos q < 2 ^ 34 -> Zpos r < 1000000000 ->
  finite (SFadd prec emax (binary_round prec emax s q 0)
            (SFdiv prec emax (binary_round prec emax s r 0)
               (Float64.of_Z 1000000000))).
Proof.
  intros Hq Hr.
  destruct (of_small_shape s q Hq) as (ma & ea & Ha & Hma & Hea).
  destruct (nanos_shape s r Hr) as (mb & eb & Hb & Hmb & Heb).
  rewrite Ha, Hb.
  destruct (SFadd_finite s ma ea mb eb 120) as (m & e & H).
  - binary64. lia.
  - binary64. lia.
  - assert (H1 : 2 ^ (ea - Z.min ea eb) <= 2 ^ 63)
      by (apply Z.pow_le_mono_r; lia).
    assert (H2 : 2 ^ (eb - Z.min ea eb) <= 2 ^ 63)
      by (apply Z.pow_le_mono_r; lia).
    assert (H3 : 0 < 2 ^ (ea - Z.min ea eb)) by (apply Z.pow_pos_nonneg; lia).
    assert (H4 : 0 < 2 ^ (eb - Z.min ea eb)) by (apply Z.pow_pos_nonneg; lia).
    change (2 ^ 63) with 9223372036854775808 in *.
    change (2 ^ 53) with 9007199254740992 in *.
    change (2 ^ 54) with 18014398509481984 in *.
    change (2 ^ 120) with 1329227995784915872903807060280344576.
    nia.
  - binary64. lia.
  - rewrite H. exact I.
Qed.

(** The seconds of an [int64] duration are never an infinity nor NaN. *)
Lemma Seconds_finite d : int64 d -> finite (Duration.Seconds d).
Proof.
  intros [Hlo Hhi]. unfold Duration.Seconds, Float64.add, Float64.div.
  change Duration.Second with 1000000000.
  change (2 ^ 63) with 9223372036854775808 in *.
  pose proof (Z.quot_rem' d 1000000000) as Hqr.
  assert (Hs : (0 <= Z.quot d 1000000000 /\ 0 <= Z.rem d 1000000000 < 1000000000)
               \/ (Z.quot d 1000000000 <= 0 /\ - 1000000000 < Z.rem d 1000000000 <= 0)).
  { destruct (Z_le_gt_dec 0 d) as [Hd | Hd].
    - left. split; [apply Z.quot_pos; lia | apply Z.rem_bound_pos; lia].
    - right. split; [apply Z.quot_le_upper_bound; lia |].
      apply (Z.rem_bound_pos_neg d 1000000000); lia. }
  revert Hqr Hs.
  generalize (Z.quot d 1000000000) (Z.rem d 1000000000). intros q r Hqr Hs.
  assert (Hq : Z.abs q < 2 ^ 34) by (change (2 ^ 34) with 17179869184; lia).
  set (billion := Float64.of_Z 1000000000).
  destruct q as [| q | q], r as [| r | r]; try lia;
    unfold Float64.of_Z; cbn [binary_normalize]; subst billion.
  - exact I.
  - destruct (nanos_shape false r) as (m & e & H & _); [lia |].
    rewrite H. exact I.
  - destruct (nanos_shape true r) as (m & e & H & _); [lia |].
    rewrite H. exact I.
  - destruct (of_small_shape false q) as (m & e & H & _); [lia |].
    rewrite H. exact I.
  - apply seconds_sum_finite; lia.
  - destruct (of_small_shape true q) as (m & e & H & _); [lia |].
    rewrite H. exact I.
  - apply seconds_sum_finite; lia.
Qed.

End SecondsFinite.

(** ** What the TTL gauge tells *)

(** X8: after [Set(&d)] the TTL gauge has the sign of [d]: it reads less
    than zero exactly when [d < 0], zero exactly when [d = 0], and more
    than zero exactly when [d > 0]. *)
Theorem ttl_gauge_has_sign_of_duration (d : Duration.t) (w : World) :
  exists w',
    ttlAdapter_Set (metrics.ClientCertTTL adapters) (Some d) w = Done tt w' /\
    (Float64.ltb (k8smetrics.g_value (w_execPluginCertTTL w')) Float64.zero = true
     <-> d < 0) /\
    (k8smetrics.g_value (w_execPluginCertTTL w') = Float64.zero <-> d = 0) /\
    (Float64.ltb Float64.zero (k8smetrics.g_value (w_execPluginCertTTL w')) = true
     <-> 0 < d).
Proof.
  eexists. split; [reflexivity |].
  cbn [ta_m metrics.ClientCertTTL adapters store_g load_g w_execPluginCertTTL
       k8smetrics.Gauge_Set k8smetrics.g_value].
  apply Seconds_sign.
Qed.

(** X9: [+Inf] stands for "no TTL" only. After [Set(&d)], for any [int64]
    duration [d], the TTL gauge holds a finite number, so it does not read
    the [+Inf] that [Set(nil)] and [init] store. *)
Theorem ttl_gauge_finite_unless_nil (d : Duration.t) (w : World) :
  int64 d ->
  exists w',
    ttlAdapter_Set (metrics.ClientCertTTL adapters) (Some d) w = Done tt w' /\
    finite (k8smetrics.g_value (w_execPluginCertTTL w')) /\
    k8smetrics.g_value (w_execPluginCertTTL w') <> ttl_value None.
Proof.
  intros Hd. eexists. split; [reflexivity |].
  cbn [ta_m metrics.ClientCertTTL adapters store_g load_g w_execPluginCertTTL
       k8smetrics.Gauge_Set k8smetrics.g_value].
  pose proof (Seconds_finite d Hd) as Hfin.
  split; [exact Hfin |].
  intros Heq. rewrite Heq in Hfin. exact Hfin.
Qed.

(** X10: a TTL of a whole number [n] of seconds is stored as [float64(n)]:
    the nanoseconds of the duration leave no trace in the gauge. *)
Theorem ttl_gauge_whole_seconds (n : Z) (w : World) :
  exists w',
    ttlAdapter_Set (metrics.ClientCertTTL adapters)
      (Some (n * Duration.Second)) w = Done tt w' /\
    k8smetrics.g_value (w_execPluginCertTTL w') = Float64.of_Z n.
Proof.
  eexists. split; [reflexivity |].
  cbn [ta_m metrics.ClientCertTTL adapters store_g load_g w_execPluginCertTTL
       k8smetrics.Gauge_Set k8smetrics.g_value].
  apply Seconds_whole.
Qed.

(** ** What no call changes *)

(** X11: whichever adapters are installed, or none, no run of calls of the
    client library panics, and none changes the registry, the installed
    hooks, or the options and label names of an instrument. *)
Theorem calls_keep_configuration (cs : list Call) (w : World) :
  exists w',
    client_calls cs w = Done tt w' /\
    w_registry w' = w_registry w /\
    w_hooks w' = w_hooks w /\
    (declared w -> declared w') /\
    bounds w' = bounds w.
Proof.
  destruct (client_calls_frame cs w) as (w' & Hrun & Hcfg & _).
  exists w'. split; [exact Hrun |].
  pose proof (config_bounds _ _ Hcfg) as Hb.
  pose proof (config_hooks _ _ Hcfg) as Hh.
  unfold config in Hcfg. unfold declared.
  injection Hcfg as -> -> -> -> -> -> -> -> -> _.
  repeat split; try assumption; tauto.
Qed.

(** ** Any latency adapter *)

(** X12: [Observe] of a latency adapter built on any two histogram
    pointers completes, and the series of [(verb, u.String())] in a
    histogram [p] counts one more sample for each of the adapter's two
    fields that points at [p]: one for each of two distinct histograms, two
    for a histogram given twice, none for a histogram the adapter does not
    hold. *)
Theorem latencyAdapter_Observe_counts_per_pointer
    (l : latencyAdapter) (verb : string) (u : URL) (d : Duration.t)
    (p : HistogramVecVar) (w : World) :
  let lvs := [verb; URL_String u] in
  exists w',
    latencyAdapter_Observe l verb u d w = Done tt w' /\
    k8smetrics.hd_count (k8smetrics.HistogramVec_series lvs (load_hv p w'))
    = (k8smetrics.hd_count (k8smetrics.HistogramVec_series lvs (load_hv p w))
       + (if decide (la_m l = p) then 1 else 0)
       + (if decide (la_dm l = p) then 1 else 0))%N.
Proof.
  intros lvs. eexists. split; [reflexivity |]. subst lvs.
  destruct l as [[] []], p;
    cbn [la_m la_dm load_hv store_hv w_requestLatency w_deprecatedRequestLatency];
    rewrite ?HistogramVec_Observe_series;
    cbn [k8smetrics.observe k8smetrics.hd_count];
    repeat case_decide; try congruence; lia.
Qed.

End Adapters.

(** * The properties at work

    The state right after [init], in a process whose registry was empty;
    URLs are given by their text. *)

Example startup_completes :
  init (pkg_vars [] None) = Done tt (initialized (pkg_vars [] None)).
Proof. reflexivity. Qed.

(** Three requests answered with 200 by one host count three, and nothing
    under another label tuple. *)
Example three_increments :
  exists w',
    (resultAdapter_Increment (metrics.RequestResult adapters) "200" "GET" "api.example.com";;
     resultAdapter_Increment (metrics.RequestResult adapters) "200" "GET" "api.example.com";;
     resultAdapter_Increment (metrics.RequestResult adapters) "200" "GET" "api.example.com")
      (initialized (pkg_vars [] None)) = Done tt w' /\
    k8smetrics.cv_series (w_requestResult w') !! ["200"; "GET"; "api.example.com"]
    = Some 3%N /\
    k8smetrics.cv_series (w_requestResult w') !! ["404"; "GET"; "api.example.com"]
    = None.
Proof. eexists. split; [reflexivity |]. split; vm_compute; reflexivity. Qed.

(** [Set(nil)] reads [+Inf], then [Set(&(5*time.Minute))] reads 300. *)
Example ttl_then_five_minutes :
  exists w',
    (ttlAdapter_Set (metrics.ClientCertTTL adapters) None;;
     ttlAdapter_Set (metrics.ClientCertTTL adapters) (Some (5 * Duration.Minute)))
      (initialized (pkg_vars [] None)) = Done tt w' /\
    k8smetrics.g_value (w_execPluginCertTTL w') = Float64.of_Z 300.
Proof. eexists. split; [reflexivity |]. vm_compute. reflexivity. Qed.

(** An adapter built on one histogram twice observes twice in it: the two
    fields are pointers, not copies. *)
Example aliased_latencyAdapter :
  exists w',
    latencyAdapter_Observe string id
      {| la_m := requestLatency; la_dm := requestLatency |}
      "GET" "https://host/api" (250 * Duration.Millisecond)
      (initialized (pkg_vars [] None)) = Done tt w' /\
    k8smetrics.hd_count
      (k8smetrics.HistogramVec_series ["GET"; "https://host/api"] (w_requestLatency w'))
    = 2%N /\
    k8smetrics.hv_series (w_deprecatedRequestLatency w') = ∅.
Proof. eexists. split; [reflexivity |]. split; vm_compute; reflexivity. Qed.

Lemma latencyAdapter_Observe_records_witness :
  0 <= 250 * Duration.Millisecond /\
  exists w',
    latencyAdapter_Observe string id (metrics.RequestLatency adapters)
      "GET" "https://host/api" (250 * Duration.Millisecond)
      (initialized (pkg_vars [] None)) = Done tt w' /\
    k8smetrics.hd_count
      (k8smetrics.HistogramVec_series ["GET"; "https://host/api"] (w_requestLatency w'))
    = 1%N /\
    k8smetrics.hd_count
      (k8smetrics.HistogramVec_series ["GET"; "https://host/api"]
         (w_deprecatedRequestLatency w'))
    = 1%N /\
    k8smetrics.hd_sum
      (k8smetrics.HistogramVec_series ["GET"; "https://host/api"] (w_requestLatency w'))
    = Float64.lit 1 4 /\
    w_requestResult w' = new_requestResult.
Proof.
  split; [vm_compute; discriminate |].
  destruct (latencyAdapter_Observe_records string id "GET" "https://host/api"
              (250 * Duration.Millisecond) (initialized (pkg_vars [] None)))
    as (w' & Hrun & Hseries & Hcount & _ & _ & Hresult & _);
    [vm_compute; discriminate |].
  exists w'. split; [exact Hrun |].
  split; [exact (Hcount requestLatency) |].
  split; [exact (Hcount deprecatedRequestLatency) |].
  split; [| exact Hresult].
  exact (f_equal k8smetrics.hd_sum (Hseries requestLatency)).
Defined.

Lemma latencyAdapter_Observe_negative_witness :
  -1500 * Duration.Millisecond < 0 /\
  Float64.negative (Duration.Seconds (-1500 * Duration.Millisecond)) /\
  exists w',
    latencyAdapter_Observe string id (metrics.RequestLatency adapters)
      "GET" "https://host/api" (-1500 * Duration.Millisecond)
      (initialized (pkg_vars [] None)) = Done tt w' /\
    k8smetrics.hd_count
      (k8smetrics.HistogramVec_series ["GET"; "https://host/api"] (w_requestLatency w'))
    = 1%N /\
    k8smetrics.hd_sum
      (k8smetrics.HistogramVec_series ["GET"; "https://host/api"]
         (w_deprecatedRequestLatency w'))
    = Float64.lit (-3) 2.
Proof.
  split; [reflexivity |].
  destruct (latencyAdapter_Observe_negative string id "GET" "https://host/api"
              (-1500 * Duration.Millisecond) (initialized (pkg_vars [] None)))
    as (Hneg & w' & Hrun & _ & Hcount & Hsum); [reflexivity |].
  split; [exact Hneg |].
  exists w'. split; [exact Hrun |].
  split; [exact (Hcount requestLatency) |].
  exact (Hsum deprecatedRequestLatency).
Defined.

Lemma resultAdapter_Increment_one_witness :
  ["404"; "GET"; "api.example.com"] <> ["200"; "GET"; "api.example.com"] /\
  exists w',
    resultAdapter_Increment (metrics.RequestResult adapters)
      "200" "GET" "api.example.com" (initialized (pkg_vars [] None))
    = Done tt w' /\
    k8smetrics.CounterVec_value ["200"; "GET"; "api.example.com"] (w_requestResult w')
    = 1%N /\
    k8smetrics.cv_series (w_requestResult w') !! ["404"; "GET"; "api.example.com"]
    = None.
Proof.
  assert (Hne : ["404"; "GET"; "api.example.com"] <> ["200"; "GET"; "api.example.com"])
    by discriminate.
  split; [exact Hne |].
  destruct (resultAdapter_Increment_one "200" "GET" "api.example.com"
              (initialized (pkg_vars [] None)))
    as (w' & Hrun & Hvalue & Hother & _).
  exists w'. split; [exact Hrun |].
  split; [exact Hvalue |].
  exact (Hother _ Hne).
Defined.

Lemma ttlAdapter_Set_duration_witness :
  -1 * Duration.Second < 0 /\
  exists w',
    ttlAdapter_Set (metrics.ClientCertTTL adapters) (Some (-1 * Duration.Second))
      (initialized (pkg_vars [] None)) = Done tt w' /\
    k8smetrics.g_value (w_execPluginCertTTL w') = Float64.of_Z (-1) /\
    Float64.negative (k8smetrics.g_value (w_execPluginCertTTL w')).
Proof.
  split; [reflexivity |].
  destruct (ttlAdapter_Set_duration (-1 * Duration.Second)
              (initialized (pkg_vars [] None)))
    as (w' & Hrun & Hvalue & Hneg & _).
  exists w'. split; [exact Hrun |].
  split; [exact Hvalue |].
  apply Hneg. reflexivity.
Defined.

Lemma ttl_gauge_starts_at_inf_witness :
  let cs :=
    [ CallIncrement string "200" "GET" "api.example.com";
      CallObserve string "GET" "https://host/api" (250 * Duration.Millisecond);
      CallRotationObserve string (24 * Duration.Hour) ] in
  Forall (fun name => name ∉ ["go_goroutines"]) exported_names /\
  forallb (fun c => negb (is_Set string c)) cs = true /\
  exists w1 w2,
    init (pkg_vars ["go_goroutines"] None) = Done tt w1 /\
    k8smetrics.g_value (w_execPluginCertTTL w1) = S754_infinity false /\
    client_calls string id cs w1 = Done tt w2 /\
    k8smetrics.g_value (w_execPluginCertTTL w2) = S754_infinity false.
Proof.
  intros cs.
  assert (Hfresh : Forall (fun name => name ∉ ["go_goroutines"]) exported_names)
    by (by_evaluation).
  split; [exact Hfresh |].
  split; [reflexivity |].
  apply (ttl_gauge_starts_at_inf string id ["go_goroutines"] None cs Hfresh).
  reflexivity.
Defined.

Lemma duplicate_registration_is_fatal_witness :
  Forall (fun name => name ∉ @nil string) exported_names /\
  exists w1 msg,
    init (pkg_vars [] None) = Done tt w1 /\
    init w1 = Panic msg.
Proof.
  assert (Hfresh : Forall (fun name => name ∉ @nil string) exported_names)
    by (by_evaluation).
  split; [exact Hfresh |].
  destruct duplicate_registration_is_fatal as (_ & _ & Htwice).
  exact (Htwice [] None Hfresh).
Defined.

Lemma histogram_buckets_fixed_witness :
  let cs :=
    [ CallObserve string "GET" "https://host/api" (250 * Duration.Millisecond);
      CallSet string None;
      CallRotationObserve string (24 * Duration.Hour) ] in
  Forall (fun name => name ∉ @nil string) exported_names /\
  exists w1 w2,
    init (pkg_vars [] None) = Done tt w1 /\
    client_calls string id cs w1 = Done tt w2 /\
    bounds w1 = bounds (pkg_vars [] None) /\
    bounds w2 = bounds (pkg_vars [] None).
Proof.
  intros cs.
  assert (Hfresh : Forall (fun name => name ∉ @nil string) exported_names)
    by (by_evaluation).
  split; [exact Hfresh |].
  destruct (histogram_buckets_fixed string id) as (_ & _ & Hvars & Hrun).
  destruct (Hrun [] None cs Hfresh) as (w1 & w2 & Hinit & Hcalls & Hb1 & Hb2).
  exists w1, w2.
  split; [exact Hinit |]. split; [exact Hcalls |].
  rewrite Hb1, Hb2, (Hvars [] None). split; reflexivity.
Defined.

(** * The further properties at work *)

Lemma init_completes_iff_witness :
  declared (pkg_vars ["go_goroutines"] None) /\
  exists w',
    init (pkg_vars ["go_goroutines"] None) = Done tt w' /\
    w_registry w' = "go_goroutines" :: exported_names /\
    w_hooks w' = Some adapters.
Proof.
  assert (Hdecl : declared (pkg_vars ["go_goroutines"] None)) by (repeat split).
  split; [exact Hdecl |].
  destruct (init_completes_iff (pkg_vars ["go_goroutines"] None) Hdecl)
    as [Hiff Hpost].
  destruct (proj2 Hiff) as [w' Hrun]; [by_evaluation |].
  exists w'. split; [exact Hrun |].
  destruct (Hpost w' Hrun) as (Hregistry & Hhooks & _).
  split; [exact Hregistry | exact Hhooks].
Defined.

Lemma requests_total_counts_increments_witness :
  let cs :=
    [ CallIncrement string "200" "GET" "api.example.com";
      CallObserve string "GET" "https://host/api" (250 * Duration.Millisecond);
      CallIncrement string "404" "GET" "api.example.com";
      CallIncrement string "200" "GET" "api.example.com";
      CallSet string None;
      CallIncrement string "200" "GET" "api.example.com" ] in
  w_hooks (initialized (pkg_vars [] None)) = Some adapters /\
  exists w',
    client_calls string id cs (initialized (pkg_vars [] None)) = Done tt w' /\
    k8smetrics.CounterVec_value ["200"; "GET"; "api.example.com"] (w_requestResult w')
    = 3%N.
Proof.
  intros cs. split; [reflexivity |].
  destruct (requests_total_counts_increments string id cs
              ["200"; "GET"; "api.example.com"] (initialized (pkg_vars [] None)))
    as (w' & Hrun & Hvalue); [reflexivity |].
  exists w'. split; [exact Hrun | exact Hvalue].
Defined.

Lemma latency_counts_observes_witness :
  let cs :=
    [ CallObserve string "GET" "https://host/api" (250 * Duration.Millisecond);
      CallObserve string "PUT" "https://host/api" (10 * Duration.Millisecond);
      CallIncrement string "200" "GET" "host";
      CallObserve string "GET" "https://host/api" (-1 * Duration.Millisecond) ] in
  w_hooks (initialized (pkg_vars [] None)) = Some adapters /\
  exists w',
    client_calls string id cs (initialized (pkg_vars [] None)) = Done tt w' /\
    k8smetrics.hd_count
      (k8smetrics.HistogramVec_series ["GET"; "https://host/api"]
         (w_deprecatedRequestLatency w'))
    = 2%N.
Proof.
  intros cs. split; [reflexivity |].
  destruct (latency_counts_observes string id cs ["GET"; "https://host/api"]
              deprecatedRequestLatency (initialized (pkg_vars [] None)))
    as (w' & Hrun & Hcount); [reflexivity |].
  exists w'. split; [exact Hrun | exact Hcount].
Defined.

Lemma deprecated_latency_mirrors_witness :
  let cs :=
    [ CallObserve string "GET" "https://host/api" (250 * Duration.Millisecond);
      CallRotationObserve string (24 * Duration.Hour);
      CallObserve string "PUT" "https://host/api" (10 * Duration.Millisecond) ] in
  w_hooks (initialized (pkg_vars [] None)) = Some adapters /\
  mirrored (initialized (pkg_vars [] None)) /\
  exists w',
    client_calls string id cs (initialized (pkg_vars [] None)) = Done tt w' /\
    k8smetrics.hv_series (w_deprecatedRequestLatency w')
    = k8smetrics.hv_series (w_requestLatency w').
Proof.
  intros cs.
  assert (Hm : mirrored (initialized (pkg_vars [] None)))
    by (split; reflexivity).
  split; [reflexivity |]. split; [exact Hm |].
  apply (deprecated_latency_mirrors string id cs
           (initialized (pkg_vars [] None)) eq_refl Hm).
Defined.

Lemma rotation_age_accumulates_witness :
  let cs :=
    [ CallRotationObserve string (24 * Duration.Hour);
      CallSet string (Some (5 * Duration.Minute));
      CallRotationObserve string (30 * Duration.Minute) ] in
  w_hooks (initialized (pkg_vars [] None)) = Some adapters /\
  exists w',
    client_calls string id cs (initialized (pkg_vars [] None)) = Done tt w' /\
    k8smetrics.hd_count (k8smetrics.h_data (w_execPluginCertRotation w')) = 2%N /\
    k8smetrics.hd_sum (k8smetrics.h_data (w_execPluginCertRotation w'))
    = Float64.of_Z 88200.
Proof.
  intros cs. split; [reflexivity |].
  destruct (rotation_age_accumulates string id cs (initialized (pkg_vars [] None)))
    as (w' & Hrun & Hcount & Hsum); [reflexivity |].
  exists w'. split; [exact Hrun |]. split; [exact Hcount | exact Hsum].
Defined.

Lemma ttl_gauge_reads_last_Set_witness :
  let cs :=
    [ CallSet string (Some (5 * Duration.Minute));
      CallSet string None;
      CallIncrement string "200" "GET" "host";
      CallSet string (Some (-1 * Duration.Second));
      CallRotationObserve string (24 * Duration.Hour) ] in
  w_hooks (initialized (pkg_vars [] None)) = Some adapters /\
  exists w',
    client_calls string id cs (initialized (pkg_vars [] None)) = Done tt w' /\
    k8smetrics.g_value (w_execPluginCertTTL w') = Float64.of_Z (-1).
Proof.
  intros cs. split; [reflexivity |].
  destruct (ttl_gauge_reads_last_Set string id cs (initialized (pkg_vars [] None)))
    as (w' & Hrun & Hvalue); [reflexivity |].
  exists w'. split; [exact Hrun | exact Hvalue].
Defined.

Lemma ttl_gauge_finite_unless_nil_witness :
  int64 (- 2 ^ 63) /\
  exists w',
    ttlAdapter_Set (metrics.ClientCertTTL adapters) (Some (- 2 ^ 63))
      (initialized (pkg_vars [] None)) = Done tt w' /\
    finite (k8smetrics.g_value (w_execPluginCertTTL w')) /\
    k8smetrics.g_value (w_execPluginCertTTL w') <> S754_infinity false.
Proof.
  assert (Hd : int64 (- 2 ^ 63)) by (split; [vm_compute; discriminate | reflexivity]).
  split; [exact Hd |].
  apply (ttl_gauge_finite_unless_nil (- 2 ^ 63) (initialized (pkg_vars [] None)) Hd).
Defined.

Lemma calls_keep_configuration_witness :
  let cs :=
    [ CallObserve string "GET" "https://host/api" (250 * Duration.Millisecond);
      CallSet string None;
      CallIncrement string "200" "GET" "host" ] in
  declared (initialized (pkg_vars [] None)) /\
  exists w',
    client_calls string id cs (initialized (pkg_vars [] None)) = Done tt w' /\
    declared w' /\
    w_registry w' = exported_names.
Proof.
  intros cs.
  assert (Hdecl : declared (initialized (pkg_vars [] None))) by (repeat split).
  split; [exact Hdecl |].
  destruct (calls_keep_configuration string id cs (initialized (pkg_vars [] None)))
    as (w' & Hrun & Hregistry & _ & Hkeep & _).
  exists w'. split; [exact Hrun |]. split; [exact (Hkeep Hdecl) | exact Hregistry].
Defined.
